(** * tracktor: a shallow embedding of [base.py]

    The module defines a response-handling decorator ([ResponseHandler]),
    an abstract tracker ([Tracktor]) and two carriers ([UpsTracktor],
    [UspsTracktor]).  Python text is a list of Unicode code points, bytes
    are numbers below 256, a dict is an association list in insertion
    order, and a method is a function in a monad that threads the
    instance and the outside world and may raise. *)

From Stdlib Require Import List NArith ZArith Lia Bool String Ascii.
Import ListNotations.

Set Implicit Arguments.
Set Warnings "-register-all".

(** ** Python text *)

Module Py.

(** A [str] is a sequence of code points. *)
Definition str := list N.

(** A [bytes] value is a sequence of numbers below 256. *)
Definition bytes := list N.

(** Source literals are ASCII: [lit] reads one off. *)
Definition lit (s : string) : str :=
  map N_of_ascii (list_ascii_of_string s).

Fixpoint str_eqb (a b : str) : bool :=
  match a, b with
  | [], [] => true
  | x :: a', y :: b' => N.eqb x y && str_eqb a' b'
  | _, _ => false
  end.

(** [s.startswith(prefix)] and [s.endswith(suffix)]. *)
Fixpoint startswith (prefix s : str) : bool :=
  match prefix, s with
  | [], _ => true
  | p :: prefix', c :: s' => N.eqb p c && startswith prefix' s'
  | _ :: _, [] => false
  end.

Definition endswith (s suffix : str) : bool :=
  startswith (rev suffix) (rev s).

(** [c in text], for a single character [c]. *)
Definition contains (c : N) (text : str) : bool := existsb (N.eqb c) text.

(** [text.replace(c, new)], for a single character [c]. *)
Definition replace (c : N) (new : str) (text : str) : str :=
  flat_map (fun x => if N.eqb x c then new else [x]) text.

(** [sep.join(parts)]. *)
Fixpoint join (sep : str) (parts : list str) : str :=
  match parts with
  | [] => []
  | [p] => p
  | p :: rest => p ++ sep ++ join sep rest
  end.

(** Decimal digits of a number, most significant first: [str(n)] for a
    non-negative int.  The recursion is on the binary size of the number,
    which bounds the number of decimal digits. *)
Fixpoint digits (fuel : nat) (n : N) (acc : str) : str :=
  match fuel with
  | O => acc
  | S fuel' =>
      let acc' := (48 + n mod 10)%N :: acc in
      if (n <? 10)%N then acc' else digits fuel' (n / 10)%N acc'
  end.

Definition str_of_N (n : N) : str := digits (S (N.to_nat (N.size n))) n [].

(** Two hexadecimal digits, lower case, as [%02x] prints them. *)
Definition hexdigit (d : N) : N := if (d <? 10)%N then (48 + d)%N else (87 + d)%N.

Fixpoint hex (width : nat) (n : N) (acc : str) : str :=
  match width with
  | O => acc
  | S w => hex w (n / 16)%N (hexdigit (n mod 16) :: acc)
  end.

(** *** Classes of exceptions

    The built-in classes the module meets, each with its ancestors from
    the nearest to [BaseException], and classes derived from them. *)
Inductive builtin :=
| BaseException | Exception | KeyboardInterrupt | SystemExit
| OSError | RequestException | HTTPError | ConnectionError | Timeout
| AttributeError | TypeError | AssertionError | ValueError
| UnicodeDecodeError.

Definition builtin_eqb (a b : builtin) : bool :=
  match a, b with
  | BaseException, BaseException | Exception, Exception
  | KeyboardInterrupt, KeyboardInterrupt | SystemExit, SystemExit
  | OSError, OSError | RequestException, RequestException
  | HTTPError, HTTPError | ConnectionError, ConnectionError
  | Timeout, Timeout | AttributeError, AttributeError
  | TypeError, TypeError | AssertionError, AssertionError
  | ValueError, ValueError | UnicodeDecodeError, UnicodeDecodeError => true
  | _, _ => false
  end.

Definition ancestors (b : builtin) : list builtin :=
  match b with
  | BaseException => []
  | Exception | KeyboardInterrupt | SystemExit => [BaseException]
  | OSError | AttributeError | TypeError | AssertionError | ValueError =>
      [Exception; BaseException]
  | UnicodeDecodeError => [ValueError; Exception; BaseException]
  | RequestException => [OSError; Exception; BaseException]
  | HTTPError | ConnectionError | Timeout =>
      [RequestException; OSError; Exception; BaseException]
  end.

Inductive class :=
| Builtin (b : builtin)
| Derived (name : str) (base : class).

Fixpoint class_eqb (c d : class) : bool :=
  match c, d with
  | Builtin a, Builtin b => builtin_eqb a b
  | Derived n c', Derived m d' => str_eqb n m && class_eqb c' d'
  | _, _ => false
  end.

Fixpoint issubclass (c d : class) : bool :=
  class_eqb c d ||
  match c with
  | Builtin b =>
      match d with
      | Builtin b' => existsb (builtin_eqb b') (ancestors b)
      | Derived _ _ => false
      end
  | Derived _ base => issubclass base d
  end.

(** An exception carries its class and the text [str()] gives for it. *)
Record exn := mk_exn { exn_class : class; exn_str : str }.

Definition isinstance (e : exn) (c : class) : bool :=
  issubclass (exn_class e) c.

(** *** Computations

    What a call does: it returns or raises, and leaves a state behind in
    both cases. *)
Inductive outcome (A : Type) :=
| Return (a : A)
| Raise (e : exn).
Arguments Return {A} a.
Arguments Raise {A} e.

Definition M (St A : Type) := St -> outcome A * St.

Definition ret {St A} (a : A) : M St A := fun st => (Return a, st).

Definition raise {St A} (e : exn) : M St A := fun st => (Raise e, st).

Definition bind {St A B} (m : M St A) (k : A -> M St B) : M St B :=
  fun st =>
    match m st with
    | (Return a, st') => k a st'
    | (Raise e, st') => (Raise e, st')
    end.

(** The [try] statement with [except] clauses, tried in order, and an
    [else] clause; an exception no clause matches goes on. *)
Definition try_except_else {St A B}
    (body : M St A) (handlers : list (class * (exn -> M St B)))
    (orelse : A -> M St B) : M St B :=
  fun st =>
    match body st with
    | (Return a, st') => orelse a st'
    | (Raise e, st') =>
        match find (fun h => isinstance e (fst h)) handlers with
        | Some h => snd h e st'
        | None => (Raise e, st')
        end
    end.

End Py.

Import Py.

Declare Scope py_scope.
Delimit Scope py_scope with py.
Notation "x <- m ;; k" := (bind m (fun x => k))
  (at level 61, m at next level, right associativity) : py_scope.
Notation "m ;;; k" := (bind m (fun _ => k))
  (at level 61, right associativity) : py_scope.
Open Scope py_scope.

(** ** Dictionaries

    A dict keeps its keys in insertion order; assigning to a key that is
    present keeps the key's place. *)

Module Dict.

Definition t (V : Type) := list (str * V).

Fixpoint setitem {V} (k : str) (v : V) (d : t V) : t V :=
  match d with
  | [] => [(k, v)]
  | (k', v') :: rest =>
      if str_eqb k' k then (k', v) :: rest else (k', v') :: setitem k v rest
  end.

Fixpoint get {V} (k : str) (d : t V) : option V :=
  match d with
  | [] => None
  | (k', v') :: rest => if str_eqb k' k then Some v' else get k rest
  end.

(** [d.update(other)]. *)
Definition update {V} (d other : t V) : t V :=
  fold_left (fun acc kv => setitem (fst kv) (snd kv) acc) other d.

Definition keys {V} (d : t V) : list str := map fst d.

End Dict.

(** ** The logging module, as line 8 configures it *)

Module Logging.

Inductive level := DEBUG | INFO | WARNING | ERROR | CRITICAL.

Definition levelno (l : level) : N :=
  match l with
  | DEBUG => 10 | INFO => 20 | WARNING => 30 | ERROR => 40 | CRITICAL => 50
  end%N.

(** [logging.basicConfig(..., level=logging.INFO)] *)
Definition root_level : level := INFO.

(** A record of the log: level name and message (the time stamp the
    format adds is left out). *)
Record record := mk_record { levelname : level; message : str }.

End Logging.

(** ** The requests library, as far as the module uses it *)

Module Requests.

Inductive verb := GET | POST.

(** One call of [requests.get] or [requests.post] with its keyword
    arguments; an argument that is not passed is [None]. *)
Record request := mk_request {
  method : verb;
  url : str;
  params : option (Dict.t str);
  data : option str;
  headers : option (Dict.t str)
}.

(** A response object: [ident] stands for the identity of the object. *)
Record Response := mk_response {
  ident : N;
  status_code : N;
  reason : str;
  response_url : str;
  content : bytes
}.

(** [Response.raise_for_status]: an [HTTPError] for a status in
    400..599. *)
Definition http_error_msg (r : Response) : str :=
  if ((400 <=? status_code r) && (status_code r <? 500))%N then
    str_of_N (status_code r) ++ lit " Client Error: " ++ reason r
      ++ lit " for url: " ++ response_url r
  else if ((500 <=? status_code r) && (status_code r <? 600))%N then
    str_of_N (status_code r) ++ lit " Server Error: " ++ reason r
      ++ lit " for url: " ++ response_url r
  else [].

Definition raise_for_status {St} (r : Response) : M St unit :=
  match http_error_msg r with
  | [] => ret tt
  | msg => raise (mk_exn (Builtin HTTPError) msg)
  end.

End Requests.

(** ** The world outside the process

    [sent] lists the calls made to the requests library, oldest first;
    [carrier] is what the network and the carrier answer to a call, given
    the calls made before it: a response or an exception; [log] is what
    the root logger has emitted. *)
Record world := mk_world {
  carrier : list Requests.request -> Requests.request -> outcome Requests.Response;
  sent : list Requests.request;
  log : list Logging.record
}.

(** A method runs on its instance and the world. *)
Definition Method (Self A : Type) := M (Self * world) A.

(** [logging.log(level, msg)] on the root logger. *)
Definition logging_log {Self} (l : Logging.level) (msg : str) : Method Self unit :=
  fun '(self, w) =>
    if (Logging.levelno Logging.root_level <=? Logging.levelno l)%N then
      (Return tt,
       (self, mk_world (carrier w) (sent w) (log w ++ [Logging.mk_record l msg])))
    else (Return tt, (self, w)).

Definition logging_warning {Self} (msg : str) : Method Self unit :=
  logging_log Logging.WARNING msg.

(** [requests.request]: the call is made and the carrier's answer comes
    back. *)
Definition requests_request {Self} (rq : Requests.request)
  : Method Self Requests.Response :=
  fun '(self, w) =>
    (carrier w (sent w) rq,
     (self, mk_world (carrier w) (sent w ++ [rq]) (log w))).

Definition requests_post {Self} (url : str) (data : str) (headers : Dict.t str)
  : Method Self Requests.Response :=
  requests_request (Requests.mk_request Requests.POST url None (Some data) (Some headers)).

Definition requests_get {Self} (url : str) (params : Dict.t str)
  : Method Self Requests.Response :=
  requests_request (Requests.mk_request Requests.GET url (Some params) None None).

(** ** ResponseHandler (lines 12-28) *)

Module ResponseHandler.
Section Handler.

(** The decorated function takes [Args] and returns an object whose
    [raise_for_status] method is [check]. *)
Context {Self Args Resp : Type}.
Variable check : Resp -> Method Self unit.

(** The [try] body, lines 20-21. *)
Definition attempt (func : Args -> Method Self Resp) (args : Args)
  : Method Self Resp :=
  response <- func args ;;
  check response ;;;
  ret response.

(** The result is [None] where the wrapper returns no value. *)
Definition handler (func : Args -> Method Self Resp)
  : Args -> Method Self (option Resp) :=
  fun args =>
    try_except_else
      (attempt func args)
      [ (Builtin HTTPError, fun http_error =>
           logging_warning (exn_str http_error ++ lit " - Issue with request") ;;;
           ret None);
        (Builtin Exception, fun exc =>
           logging_warning (exn_str exc ++ lit " - issue in program") ;;;
           ret None) ]
      (fun response => ret (Some response)).

End Handler.
End ResponseHandler.

(** ** Tracktor (lines 31-51)

    A tracker class gives [_make_request]; the object it returns has a
    [raise_for_status] method.  [track] is inherited by every tracker. *)
Class Tracktor (Self : Type) := {
  Args : Type;
  Resp : Type;
  raise_for_status : Resp -> Method Self unit;
  _make_request : Args -> Method Self Resp
}.

Definition track {Self} {T : Tracktor Self} : Args -> Method Self (option Resp) :=
  ResponseHandler.handler raise_for_status (fun args => _make_request args).

(** ** Abstract base classes

    A class statement: name, base class, and the names its body binds,
    each marked abstract or not.  The metaclass computes
    [__abstractmethods__] and refuses to instantiate a class that has
    some. *)

Module ABC.

Inductive cls :=
| Class (name : str) (base : option cls) (namespace : list (str * bool)).

Definition cls_name (c : cls) : str := let 'Class n _ _ := c in n.

(** [getattr(cls, name).__isabstractmethod__], found along the bases. *)
Fixpoint isabstract (c : cls) (name : str) : bool :=
  let 'Class _ base ns := c in
  match Dict.get name ns with
  | Some a => a
  | None => match base with
            | Some b => isabstract b name
            | None => false
            end
  end.

(** [cls.__abstractmethods__]: the abstract names of the body, and the
    abstract names of the base that are still abstract in the class. *)
Fixpoint abstractmethods (c : cls) : list str :=
  let 'Class _ base ns := c in
  map fst (filter (fun m => snd m) ns)
  ++ match base with
     | Some b => filter (isabstract c) (abstractmethods b)
     | None => []
     end.

(** [cls(...)]: [object.__new__] raises [TypeError] for an abstract
    class, otherwise [init] runs. *)
Definition instantiate {A} (c : cls) (init : outcome A) : outcome A :=
  match abstractmethods c with
  | [] => init
  | names =>
      Raise (mk_exn (Builtin TypeError)
               (lit "Can't instantiate abstract class " ++ cls_name c
                  ++ lit " with abstract methods " ++ join (lit ", ") names))
  end.

End ABC.

Definition Tracktor_class : ABC.cls :=
  ABC.Class (lit "Tracktor") None
    [ (lit "_make_request", true); (lit "track", false) ].

(** ** Helpers for methods *)

Definition get_self {Self} : Method Self Self :=
  fun st => (Return (fst st), st).

Definition set_self {Self} (self : Self) : Method Self unit :=
  fun st => (Return tt, (self, snd st)).

(** A computation that touches neither the instance nor the world. *)
Definition lift {St A} (o : outcome A) : M St A := fun st => (o, st).

Fixpoint for_each {St A} (items : list A) (body : A -> M St unit) : M St unit :=
  match items with
  | [] => ret tt
  | x :: rest => body x ;;; for_each rest body
  end.

(** ** [repr] and [str] of the values a request body holds *)

(** The interpreter's Unicode database: which code points from 128 on
    [str.isprintable] accepts. *)
Class Unicode := { isprintable : N -> bool }.

Module Repr.
Section Repr.
Context {U : Unicode}.

Definition apostrophe : N := 39.
Definition quotation : N := 34.
Definition backslash : N := 92.

(** The quote [repr] picks: the quotation mark when the text has an
    apostrophe and no quotation mark, else the apostrophe. *)
Definition quote_of (s : str) : N :=
  if contains apostrophe s && negb (contains quotation s)
  then quotation else apostrophe.

Definition repr_char (quote ch : N) : str :=
  if N.eqb ch quote || N.eqb ch backslash then [backslash; ch]
  else if N.eqb ch 9 then lit "\t"
  else if N.eqb ch 10 then lit "\n"
  else if N.eqb ch 13 then lit "\r"
  else if (ch <? 32)%N || N.eqb ch 127 then lit "\x" ++ hex 2 ch []
  else if (ch <? 127)%N then [ch]
  else if isprintable ch then [ch]
  else if (ch <=? 255)%N then lit "\x" ++ hex 2 ch []
  else if (ch <=? 65535)%N then lit "\u" ++ hex 4 ch []
  else lit "\U" ++ hex 8 ch [].

Definition repr_str (s : str) : str :=
  let quote := quote_of s in
  [quote] ++ flat_map (repr_char quote) s ++ [quote].

(** The values of the UPS body: a string or a list of strings. *)
Inductive value :=
| Str (s : str)
| List (items : list str).

Definition repr (v : value) : str :=
  match v with
  | Str s => repr_str s
  | List items => lit "[" ++ join (lit ", ") (map repr_str items) ++ lit "]"
  end.

(** [str(d)] for a dict with string keys. *)
Definition str_dict (d : Dict.t value) : str :=
  lit "{"
  ++ join (lit ", ") (map (fun kv => repr_str (fst kv) ++ lit ": " ++ repr (snd kv)) d)
  ++ lit "}".

End Repr.
End Repr.

(** ** UpsTracktor (lines 54-76) *)

Module UpsTracktor.

Record t := mk {
  url : str;
  body : Dict.t Repr.value;
  headers : Dict.t str
}.

Definition class : ABC.cls :=
  ABC.Class (lit "UpsTracktor") (Some Tracktor_class)
    [ (lit "__init__", false); (lit "_make_request", false) ].

Definition __init__ : t :=
  mk (lit "https://www.ups.com/track/api/Track/GetStatus?loc=en_US")
     [ (lit "Locale", Repr.Str (lit "en_US"));
       (lit "Requester", Repr.Str (lit "wt/trackdetails")) ]
     [ (lit "accept", lit "application/json, text/plain, */*");
       (lit "content-type", lit "application/json") ].

(** [UpsTracktor()] *)
Definition new : outcome t := ABC.instantiate class (Return __init__).

Definition _make_request {U : Unicode} (tracking_numbers : list str)
  : Method t Requests.Response :=
  self <- get_self ;;
  set_self (mk (url self)
               (Dict.update (body self)
                  [ (lit "TrackingNumber", Repr.List tracking_numbers) ])
               (headers self)) ;;;
  self <- get_self ;;
  requests_post (url self) (Repr.str_dict (body self)) (headers self).

End UpsTracktor.

#[export] Instance UpsTracktor_Tracktor {U : Unicode} : Tracktor UpsTracktor.t := {
  Args := list str;
  Resp := Requests.Response;
  raise_for_status := Requests.raise_for_status;
  _make_request := UpsTracktor._make_request
}.

(** ** The UTF-8 codec

    [encode] is [str.encode('utf-8', 'xmlcharrefreplace')], which is what
    the text layer [ElementTree.write] puts over a binary file does: a
    code point UTF-8 cannot encode (a surrogate) is written as a
    character reference.  [decode] is [bytes.decode('utf-8')]. *)

Module Utf8.

Definition is_surrogate (c : N) : bool := ((55296 <=? c) && (c <=? 57343))%N.

Definition encodable (c : N) : bool := ((c <? 1114112) && negb (is_surrogate c))%N.

Definition charref (c : N) : str := lit "&#" ++ str_of_N c ++ lit ";".

Definition encode_char (c : N) : bytes :=
  (if negb (encodable c) then charref c
   else if c <? 128 then [c]
   else if c <? 2048 then [192 + c / 64; 128 + c mod 64]
   else if c <? 65536 then
     [224 + c / 4096; 128 + (c / 64) mod 64; 128 + c mod 64]
   else
     [240 + c / 262144; 128 + (c / 4096) mod 64;
      128 + (c / 64) mod 64; 128 + c mod 64])%N.

Definition encode (s : str) : bytes := flat_map encode_char s.

Definition continuation (b : N) : bool := ((128 <=? b) && (b <? 192))%N.

Definition invalid : exn :=
  mk_exn (Builtin UnicodeDecodeError) (lit "'utf-8' codec can't decode bytes").

Definition cons_char (c : N) (o : outcome str) : outcome str :=
  match o with
  | Return s => Return (c :: s)
  | Raise e => Raise e
  end.

Fixpoint decode (bs : bytes) : outcome str :=
  match bs with
  | [] => Return []
  | b0 :: r0 =>
      if (b0 <? 128)%N then cons_char b0 (decode r0)
      else
        match r0 with
        | [] => Raise invalid
        | b1 :: r1 =>
            if ((194 <=? b0) && (b0 <? 224))%N then
              if continuation b1
              then cons_char ((b0 - 192) * 64 + (b1 - 128))%N (decode r1)
              else Raise invalid
            else
              match r1 with
              | [] => Raise invalid
              | b2 :: r2 =>
                  if ((224 <=? b0) && (b0 <? 240))%N then
                    let c := ((b0 - 224) * 4096 + (b1 - 128) * 64 + (b2 - 128))%N in
                    if continuation b1 && continuation b2
                       && (2048 <=? c)%N && negb (is_surrogate c)
                    then cons_char c (decode r2)
                    else Raise invalid
                  else
                    match r2 with
                    | [] => Raise invalid
                    | b3 :: r3 =>
                        let c := ((b0 - 240) * 262144 + (b1 - 128) * 4096
                                  + (b2 - 128) * 64 + (b3 - 128))%N in
                        if ((240 <=? b0) && (b0 <? 245))%N
                           && continuation b1 && continuation b2
                           && continuation b3
                           && (65536 <=? c)%N && (c <? 1114112)%N
                        then cons_char c (decode r3)
                        else Raise invalid
                    end
              end
        end
  end.

End Utf8.

(** ** xml.etree.ElementTree, as far as [_build_xml] uses it *)

Module ET.

(** An element: tag, attributes in insertion order, text, children and
    the text after the end tag. *)
Inductive Element :=
| mk_Element (tag : str) (attrib : Dict.t str) (text : option str)
             (children : list Element) (tail : option str).

Definition tag (e : Element) : str := let 'mk_Element t _ _ _ _ := e in t.

Definition append (parent child : Element) : Element :=
  let 'mk_Element t a x cs tl := parent in mk_Element t a x (cs ++ [child]) tl.

(** *** TreeBuilder

    [elem] is the stack of the elements that are open, the innermost
    first.  An element is put under its parent when its end tag comes
    (the library puts the object there at its start tag and fills it
    afterwards: the tree [close] returns is the same). *)
Record TreeBuilder := mk_TreeBuilder {
  elem : list Element;
  root : option Element
}.

Definition TreeBuilder_new : TreeBuilder := mk_TreeBuilder [] None.

Definition assertion (msg : string) : exn :=
  mk_exn (Builtin AssertionError) (lit msg).

Definition start (tag : str) (attrs : Dict.t str) : M TreeBuilder unit :=
  fun b =>
    (Return tt, mk_TreeBuilder (mk_Element tag attrs None [] None :: elem b) (root b)).

Definition end_ (tag' : str) : M TreeBuilder unit :=
  fun b =>
    match elem b with
    | [] => (Raise (mk_exn (Builtin Exception) (lit "pop from empty list")), b)
    | last :: rest =>
        if str_eqb (tag last) tag' then
          match rest with
          | parent :: up =>
              (Return tt, mk_TreeBuilder (append parent last :: up) (root b))
          | [] =>
              (Return tt,
               mk_TreeBuilder []
                 (match root b with None => Some last | Some r => Some r end))
          end
        else (Raise (assertion "end tag mismatch"), b)
    end.

Definition close : M TreeBuilder Element :=
  fun b =>
    match elem b, root b with
    | _ :: _, _ => (Raise (assertion "missing end tags"), b)
    | [], None => (Raise (assertion "missing toplevel element"), b)
    | [], Some r => (Return r, b)
    end.

(** *** Serialisation *)

Definition _escape_cdata (text : str) : str :=
  let text := if contains 38 text then replace 38 (lit "&amp;") text else text in
  let text := if contains 60 text then replace 60 (lit "&lt;") text else text in
  let text := if contains 62 text then replace 62 (lit "&gt;") text else text in
  text.

Definition _escape_attrib (text : str) : str :=
  let text := if contains 38 text then replace 38 (lit "&amp;") text else text in
  let text := if contains 60 text then replace 60 (lit "&lt;") text else text in
  let text := if contains 62 text then replace 62 (lit "&gt;") text else text in
  let text := if contains 34 text then replace 34 (lit "&quot;") text else text in
  let text := if contains 13 text then replace 13 (lit "&#13;") text else text in
  let text := if contains 10 text then replace 10 (lit "&#10;") text else text in
  let text := if contains 9 text then replace 9 (lit "&#09;") text else text in
  text.

Definition serialize_attrib (kv : str * str) : str :=
  lit " " ++ fst kv ++ lit "=" ++ [34%N] ++ _escape_attrib (snd kv) ++ [34%N].

Definition has_text (x : option str) : bool :=
  match x with
  | Some (_ :: _) => true
  | _ => false
  end.

Definition escape_text (x : option str) : str :=
  match x with
  | Some s => if has_text x then _escape_cdata s else []
  | None => []
  end.

(** [_serialize_xml] for elements with plain tags and no namespaces. *)
Fixpoint _serialize_xml (short_empty_elements : bool) (e : Element) : str :=
  let 'mk_Element tag attrib text children tail := e in
  lit "<" ++ tag
  ++ flat_map serialize_attrib attrib
  ++ (if has_text text || negb (Nat.eqb (List.length children) 0)
         || negb short_empty_elements
      then lit ">" ++ escape_text text
           ++ flat_map (_serialize_xml short_empty_elements) children
           ++ lit "</" ++ tag ++ lit ">"
      else lit " />")
  ++ escape_text tail.

Definition newline : str := [10%N].

(** [ElementTree(root).write(file, xml_declaration=True,
    encoding=encoding, short_empty_elements=...)] on a binary file:
    what the file holds afterwards. *)
Definition write (root : Element) (encoding : str) (short_empty_elements : bool)
  : bytes :=
  Utf8.encode
    (lit "<?xml version='1.0' encoding='" ++ encoding ++ lit "'?>" ++ newline
     ++ _serialize_xml short_empty_elements root).

End ET.

(** ** UspsTracktor (lines 79-124) *)

Module UspsTracktor.

(** [tracking_numbers] is an attribute only after the first
    [_make_request]. *)
Record t := mk {
  user_id : str;
  url : str;
  params : Dict.t str;
  tracking_numbers : option (list str)
}.

Definition class : ABC.cls :=
  ABC.Class (lit "UspsTracktor") (Some Tracktor_class)
    [ (lit "__init__", false); (lit "_build_xml", false);
      (lit "_make_request", false) ].

Definition __init__ (user_id : str) : t :=
  mk user_id
     (lit "http://production.shippingapis.com/ShippingAPI.dll")
     [ (lit "API", lit "TrackV2") ]
     None.

(** A call of the class with positional arguments: [__init__] takes one
    besides [self]. *)
Definition new (args : list str) : outcome t :=
  ABC.instantiate class
    match args with
    | [user_id] => Return (__init__ user_id)
    | [] =>
        Raise (mk_exn (Builtin TypeError)
                 (lit "__init__() missing 1 required positional argument: 'user_id'"))
    | _ :: _ :: _ =>
        Raise (mk_exn (Builtin TypeError)
                 (lit "__init__() takes 2 positional arguments but more were given"))
    end.

(** Lines 100-108: what the builder is told. *)
Definition build (user_id : str) (tracking_numbers : list str)
  : M ET.TreeBuilder ET.Element :=
  ET.start (lit "TrackRequest") [ (lit "USERID", user_id) ] ;;;
  for_each tracking_numbers (fun tracking_number =>
    ET.start (lit "TrackID") [ (lit "ID", tracking_number) ] ;;;
    ET.end_ (lit "TrackID")) ;;;
  ET.end_ (lit "TrackRequest") ;;;
  ET.close.

Definition _build_xml : Method t str :=
  self <- get_self ;;
  match tracking_numbers self with
  | None =>
      raise (mk_exn (Builtin AttributeError)
               (lit "'UspsTracktor' object has no attribute 'tracking_numbers'"))
  | Some numbers =>
      root <- lift (fst (build (user_id self) numbers ET.TreeBuilder_new)) ;;
      let temp_buffer := ET.write root (lit "UTF-8") false in
      lift (Utf8.decode temp_buffer)
  end.

Definition _make_request (numbers : list str)
  : Method t Requests.Response :=
  self <- get_self ;;
  set_self (mk (user_id self) (url self) (params self) (Some numbers)) ;;;
  xml <- _build_xml ;;
  self <- get_self ;;
  set_self (mk (user_id self) (url self)
               (Dict.setitem (lit "XML") xml (params self))
               (tracking_numbers self)) ;;;
  self <- get_self ;;
  requests_get (url self) (params self).

End UspsTracktor.

#[export] Instance UspsTracktor_Tracktor : Tracktor UspsTracktor.t := {
  Args := list str;
  Resp := Requests.Response;
  raise_for_status := Requests.raise_for_status;
  _make_request := UspsTracktor._make_request
}.

(** ** Well-formed XML

    What the words of the specification mean: which characters XML 1.0
    allows in a document, and a reader for documents whose elements hold
    attributes and child elements (no text, comments or processing
    instructions).  A text the reader accepts is well-formed, and the
    reader gives its declaration and its tree; an attribute value is read
    as XML normalises it. *)

Module Xml.

(** Production 2, Char. *)
Definition is_char (c : N) : bool :=
  (N.eqb c 9 || N.eqb c 10 || N.eqb c 13
   || ((32 <=? c) && (c <=? 55295))
   || ((57344 <=? c) && (c <=? 65533))
   || ((65536 <=? c) && (c <=? 1114111)))%N.

(** Production 3, S. *)
Definition is_space (c : N) : bool :=
  N.eqb c 32 || N.eqb c 9 || N.eqb c 10 || N.eqb c 13.

Definition between (lo hi c : N) : bool := ((lo <=? c) && (c <=? hi))%N.

(** Production 4, NameStartChar. *)
Definition is_name_start (c : N) : bool :=
  N.eqb c 58 || between 65 90 c || N.eqb c 95 || between 97 122 c
  || between 192 214 c || between 216 246 c || between 248 767 c
  || between 880 893 c || between 895 8191 c || between 8204 8205 c
  || between 8304 8591 c || between 11264 12271 c || between 12289 55295 c
  || between 63744 64975 c || between 65008 65533 c
  || between 65536 983039 c.

(** Production 4a, NameChar. *)
Definition is_name_char (c : N) : bool :=
  is_name_start c || N.eqb c 45 || N.eqb c 46 || between 48 57 c
  || N.eqb c 183 || between 768 879 c || between 8255 8256 c.

Inductive node :=
| Node (name : str) (attributes : list (str * str)) (children : list node)
       (empty_tag : bool).

Record declaration := mk_declaration {
  version : str;
  encoding : option str
}.

Record document := mk_document {
  prolog : option declaration;
  root : node
}.

Local Notation "'let*' x ':=' e 'in' k" :=
  (match e with Some x => k | None => None end)
  (at level 10, x pattern, e at level 100, k at level 200).

Definition expect (prefix s : str) : option str :=
  if startswith prefix s then Some (skipn (List.length prefix) s) else None.

Fixpoint skip_space (s : str) : str :=
  match s with
  | c :: s' => if is_space c then skip_space s' else s
  | [] => []
  end.

Fixpoint name_chars (s : str) : str * str :=
  match s with
  | c :: s' =>
      if is_name_char c
      then let '(n, r) := name_chars s' in (c :: n, r)
      else ([], s)
  | [] => ([], [])
  end.

(** Production 5, Name. *)
Definition parse_name (s : str) : option (str * str) :=
  match s with
  | c :: s' =>
      if is_name_start c
      then let '(n, r) := name_chars s' in Some (c :: n, r)
      else None
  | [] => None
  end.

(** Production 25, Eq. *)
Definition parse_eq (s : str) : option str :=
  let* r := expect [61%N] (skip_space s) in Some (skip_space r).

Fixpoint number (base : N) (digits : str) (acc : N) : option N :=
  match digits with
  | [] => Some acc
  | d :: rest =>
      let v :=
        if between 48 57 d then Some (d - 48)%N
        else if N.eqb base 16 && between 97 102 d then Some (d - 87)%N
        else if N.eqb base 16 && between 65 70 d then Some (d - 55)%N
        else None in
      let* v := v in number base rest (acc * base + v)%N
  end.

(** Productions 66 to 68: what [&name;] stands for, [name] given.  The
    entities are the predefined ones; a character reference must name a
    Char. *)
Definition resolve (name : str) : option N :=
  if str_eqb name (lit "amp") then Some 38%N
  else if str_eqb name (lit "lt") then Some 60%N
  else if str_eqb name (lit "gt") then Some 62%N
  else if str_eqb name (lit "quot") then Some 34%N
  else if str_eqb name (lit "apos") then Some 39%N
  else
    let* c :=
      match name with
      | 35%N :: 120%N :: d :: ds => number 16 (d :: ds) 0
      | 35%N :: d :: ds => number 10 (d :: ds) 0
      | _ => None
      end in
    if is_char c then Some c else None.

(** Production 10, AttValue, after the opening quote: the value,
    normalised, and what follows the closing quote.  [ref] holds the
    name of the reference being read, backwards. *)
Fixpoint att_value (quote : N) (ref : option str) (s : str)
  : option (str * str) :=
  match s with
  | [] => None
  | c :: s' =>
      match ref with
      | Some r =>
          if N.eqb c 59 then
            let* x := resolve (rev r) in
            let* (v, rest) := att_value quote None s' in
            Some (x :: v, rest)
          else att_value quote (Some (c :: r)) s'
      | None =>
          if N.eqb c quote then Some ([], s')
          else if N.eqb c 60 then None
          else if N.eqb c 38 then att_value quote (Some []) s'
          else
            let* (v, rest) := att_value quote None s' in
            Some ((if is_space c then 32%N else c) :: v, rest)
      end
  end.

(** A quoted literal without references: the text up to the quote. *)
Fixpoint until (quote : N) (s : str) : option (str * str) :=
  match s with
  | [] => None
  | c :: s' =>
      if N.eqb c quote then Some ([], s')
      else let* (v, rest) := until quote s' in Some (c :: v, rest)
  end.

Definition quoted (s : str) : option (str * str) :=
  match s with
  | q :: s' => if N.eqb q 34 || N.eqb q 39 then until q s' else None
  | [] => None
  end.

(** Production 26, VersionNum. *)
Definition is_version (v : str) : bool :=
  match v with
  | 49%N :: 46%N :: d :: ds => forallb (between 48 57) (d :: ds)
  | _ => false
  end.

(** Production 81, EncName. *)
Definition is_enc_name (v : str) : bool :=
  match v with
  | c :: cs =>
      (between 65 90 c || between 97 122 c)
      && forallb (fun x => between 65 90 x || between 97 122 x
                           || between 48 57 x || N.eqb x 46 || N.eqb x 95
                           || N.eqb x 45) cs
  | [] => false
  end.

(** Production 23, XMLDecl (without a standalone declaration). *)
Definition parse_declaration (s : str) : option (declaration * str) :=
  let* s := expect (lit "<?xml") s in
  match s with
  | c :: _ =>
      if is_space c then
        let* s := expect (lit "version") (skip_space s) in
        let* s := parse_eq s in
        let* (v, s) := quoted s in
        if is_version v then
          match expect (lit "encoding") (skip_space s) with
          | Some s' =>
              if match s with c :: _ => is_space c | [] => false end then
                let* s' := parse_eq s' in
                let* (e, s') := quoted s' in
                if is_enc_name e then
                  let* s' := expect (lit "?>") (skip_space s') in
                  Some (mk_declaration v (Some e), s')
                else None
              else None
          | None =>
              let* s := expect (lit "?>") (skip_space s) in
              Some (mk_declaration v None, s)
          end
        else None
      else None
  | [] => None
  end.

(** Production 41, Attribute, repeated: each attribute after white
    space. *)
Fixpoint parse_attributes (fuel : nat) (s : str)
  : option (list (str * str) * str) :=
  match fuel with
  | O => None
  | S fuel' =>
      match s with
      | c :: s' =>
          if is_space c then
            match parse_name (skip_space s') with
            | Some (name, s1) =>
                let* s2 := parse_eq s1 in
                match s2 with
                | q :: s3 =>
                    if N.eqb q 34 || N.eqb q 39 then
                      let* (v, s4) := att_value q None s3 in
                      let* (rest, s5) := parse_attributes fuel' s4 in
                      Some ((name, v) :: rest, s5)
                    else None
                | [] => None
                end
            | None => Some ([], skip_space s')
            end
          else Some ([], s)
      | [] => Some ([], [])
      end
  end.

Fixpoint distinct (names : list str) : bool :=
  match names with
  | [] => true
  | n :: rest => negb (existsb (str_eqb n) rest) && distinct rest
  end.

(** Production 43, content, of elements only: the elements up to an end
    tag, each read by [element]. *)
Fixpoint parse_content (element : str -> option (node * str)) (fuel : nat)
    (s : str) : option (list node * str) :=
  match fuel with
  | O => None
  | S fuel' =>
      if startswith (lit "</") s then Some ([], s)
      else
        let* (e, s) := element s in
        let* (rest, s) := parse_content element fuel' s in
        Some (e :: rest, s)
  end.

(** Productions 39, 40, 42 and 44: an element, written with a start tag
    and an end tag or with an empty-element tag. *)
Fixpoint parse_element (fuel : nat) (s : str) : option (node * str) :=
  match fuel with
  | O => None
  | S fuel' =>
      let* s := expect [60%N] s in
      let* (name, s) := parse_name s in
      let* (atts, s) := parse_attributes fuel' s in
      if distinct (map fst atts) then
        match s with
        | 47%N :: 62%N :: s' => Some (Node name atts [] true, s')
        | 62%N :: s' =>
            let* (kids, s') := parse_content (parse_element fuel') fuel' s' in
            let* s' := expect (lit "</" ++ name) s' in
            let* s' := expect [62%N] (skip_space s') in
            Some (Node name atts kids false, s')
        | _ => None
        end
      else None
  end.

(** Production 1, document: every character is a Char, an optional
    declaration, one root element, and white space around it. *)
Definition parse_document (s : str) : option document :=
  if forallb is_char s then
    let '(decl, body) :=
      match parse_declaration s with
      | Some (d, r) => (Some d, r)
      | None => (None, s)
      end in
    let* (e, rest) := parse_element (S (List.length s)) (skip_space body) in
    match skip_space rest with
    | [] => Some (mk_document decl e)
    | _ :: _ => None
    end
  else None.

Definition well_formed (s : str) : Prop := parse_document s <> None.

End Xml.

(** ** Callers and sample worlds *)

(** What a caller does with a tracker: it calls [_make_request] or
    [track]. *)
Inductive call (A : Type) :=
| MakeRequest (args : A)
| Track (args : A).

(** The state after a sequence of calls, whatever each call returned or
    raised. *)
Fixpoint after_calls {Self} {T : Tracktor Self} (calls : list (call Args))
    (st : Self * world) : Self * world :=
  match calls with
  | [] => st
  | MakeRequest args :: rest => after_calls rest (snd (_make_request args st))
  | Track args :: rest => after_calls rest (snd (track args st))
  end.

(** The wrapped call or the check of its response raises [e] and leaves
    [st1]. *)
Definition raises_in {Self} {T : Tracktor Self} (args : Args)
    (st : Self * world) (e : exn) (st1 : Self * world) : Prop :=
  _make_request args st = (Raise e, st1)
  \/ exists r st0,
       _make_request args st = (Return r, st0)
       /\ raise_for_status r st0 = (Raise e, st1).

(** A database that calls the ASCII letters, digits and signs printable
    and nothing else. *)
Definition ascii_only : Unicode := {| isprintable := fun _ => false |}.

(** A world whose carrier answers every request with [r], and one where
    every request raises [e]. *)
Definition answering (r : Requests.Response) : world :=
  mk_world (fun _ _ => Return r) [] [].

Definition failing (e : exn) : world :=
  mk_world (fun _ _ => Raise e) [] [].

Definition ok_response : Requests.Response :=
  Requests.mk_response 1 200 (lit "OK")
    (lit "http://production.shippingapis.com/ShippingAPI.dll") [].

Definition error_response : Requests.Response :=
  Requests.mk_response 2 500 (lit "Internal Server Error")
    (lit "http://production.shippingapis.com/ShippingAPI.dll") [].

Definition connection_error : exn :=
  mk_exn (Builtin ConnectionError) (lit "Connection refused").

Definition keyboard_interrupt : exn :=
  mk_exn (Builtin KeyboardInterrupt) [].

Definition sample_numbers : list str := [ lit "9400111202555842761005" ].

(** A tracking number that ends in a vertical tab. *)
Definition control_numbers : list str := [ lit "9400" ++ [11%N] ].

Definition sample_tracker : UspsTracktor.t := UspsTracktor.__init__ (lit "123USERID").

(** The world with one more record in the log. *)
Definition logged (r : Logging.record) (w : world) : world :=
  mk_world (carrier w) (sent w) (log w ++ [r]).

(** The world with one more call made. *)
Definition called (rq : Requests.request) (w : world) : world :=
  mk_world (carrier w) (sent w ++ [rq]) (log w).

(** The message the handler logs for an exception. *)
Definition warning_of (e : exn) : Logging.record :=
  Logging.mk_record Logging.WARNING
    (exn_str e ++ (if isinstance e (Builtin HTTPError)
                   then lit " - Issue with request"
                   else lit " - issue in program")).

(** ** What the claims speak of *)

(** What the text layer makes of a character: itself, or a character
    reference when UTF-8 cannot encode it. *)
Definition replaced (c : N) : str :=
  if Utf8.encodable c then [c] else Utf8.charref c.

Definition prepend (a : str) (o : outcome str) : outcome str :=
  match o with
  | Return s => Return (a ++ s)
  | Raise e => Raise e
  end.

(** How an attribute value is written, character by character. *)
Definition escaped_char (c : N) : str :=
  if N.eqb c 38 then lit "&amp;"
  else if N.eqb c 60 then lit "&lt;"
  else if N.eqb c 62 then lit "&gt;"
  else if N.eqb c 34 then lit "&quot;"
  else if N.eqb c 13 then lit "&#13;"
  else if N.eqb c 10 then lit "&#10;"
  else if N.eqb c 9 then lit "&#09;"
  else [c].

(** The tree of a request: a [TrackRequest] with one [TrackID] for each
    tracking number. *)
Definition TrackID (tracking_number : str) : ET.Element :=
  ET.mk_Element (lit "TrackID") [ (lit "ID", tracking_number) ] None [] None.

Definition TrackRequest (user_id : str) (tracking_numbers : list str) : ET.Element :=
  ET.mk_Element (lit "TrackRequest") [ (lit "USERID", user_id) ] None
    (map TrackID tracking_numbers) None.

(** The text of a request, before the text layer. *)
Definition TrackID_text (tracking_number : str) : str :=
  lit "<TrackID ID=" ++ [34%N] ++ flat_map escaped_char tracking_number
    ++ [34%N] ++ lit "></TrackID>".

Definition request_text (user_id : str) (tracking_numbers : list str) : str :=
  lit "<?xml version='1.0' encoding='UTF-8'?>" ++ ET.newline
  ++ lit "<TrackRequest USERID=" ++ [34%N] ++ flat_map escaped_char user_id
  ++ [34%N] ++ lit ">"
  ++ flat_map TrackID_text tracking_numbers
  ++ lit "</TrackRequest>".

(** The document a reader of XML is to find in it. *)
Definition TrackID_node (number : str) : Xml.node :=
  Xml.Node (lit "TrackID") [ (lit "ID", number) ] [] false.

Definition request_document (user_id : str) (tracking_numbers : list str)
  : Xml.document :=
  Xml.mk_document
    (Some (Xml.mk_declaration (lit "1.0") (Some (lit "UTF-8"))))
    (Xml.Node (lit "TrackRequest") [ (lit "USERID", user_id) ]
       (map TrackID_node tracking_numbers) false).

(** Every character of every string is one XML allows. *)
Definition xml_chars (s : str) : Prop := forallb Xml.is_char s = true.

(** The call [UspsTracktor._make_request] makes for a list of tracking
    numbers, and the instance it leaves. *)
Definition usps_xml (user_id : str) (numbers : list str) : str :=
  flat_map replaced (request_text user_id numbers).

Definition usps_params (user_id : str) (numbers : list str) : Dict.t str :=
  [ (lit "API", lit "TrackV2"); (lit "XML", usps_xml user_id numbers) ].

Definition usps_request (user_id : str) (numbers : list str) : Requests.request :=
  Requests.mk_request Requests.GET
    (lit "http://production.shippingapis.com/ShippingAPI.dll")
    (Some (usps_params user_id numbers)) None None.

Definition usps_after (user_id : str) (numbers : list str) : UspsTracktor.t :=
  UspsTracktor.mk user_id
    (lit "http://production.shippingapis.com/ShippingAPI.dll")
    (usps_params user_id numbers) (Some numbers).

(** The instances a [UspsTracktor] made for [user_id] can be after some
    calls. *)
Definition usps_state (user_id : str) (self : UspsTracktor.t) : Prop :=
  self = UspsTracktor.__init__ user_id
  \/ exists numbers, self = usps_after user_id numbers.

(** The same for [UpsTracktor]. *)
Definition ups_body (numbers : list str) : Dict.t Repr.value :=
  [ (lit "Locale", Repr.Str (lit "en_US"));
    (lit "Requester", Repr.Str (lit "wt/trackdetails"));
    (lit "TrackingNumber", Repr.List numbers) ].

Definition ups_request {U : Unicode} (numbers : list str) : Requests.request :=
  Requests.mk_request Requests.POST
    (lit "https://www.ups.com/track/api/Track/GetStatus?loc=en_US")
    None
    (Some (Repr.str_dict (ups_body numbers)))
    (Some [ (lit "accept", lit "application/json, text/plain, */*");
            (lit "content-type", lit "application/json") ]).

Definition ups_after (numbers : list str) : UpsTracktor.t :=
  UpsTracktor.mk (UpsTracktor.url UpsTracktor.__init__) (ups_body numbers)
    (UpsTracktor.headers UpsTracktor.__init__).

Definition ups_state (self : UpsTracktor.t) : Prop :=
  self = UpsTracktor.__init__ \/ exists numbers, self = ups_after numbers.

(** ** What the further properties speak of *)

(** The arguments of a call, and the tracking numbers of the last call
    of a sequence. *)
Definition call_args {A} (c : call A) : A :=
  match c with
  | MakeRequest args => args
  | Track args => args
  end.

Definition last_numbers (calls : list (call (list str))) : option (list str) :=
  fold_left (fun _ c => Some (call_args c)) calls None.

(** A [UspsTracktor] whose last call, if any, was for [last]. *)
Definition usps_with (user_id : str) (last : option (list str)) : UspsTracktor.t :=
  match last with
  | None => UspsTracktor.__init__ user_id
  | Some numbers => usps_after user_id numbers
  end.

Definition ups_with (last : option (list str)) : UpsTracktor.t :=
  match last with
  | None => UpsTracktor.__init__
  | Some numbers => ups_after numbers
  end.

(** How often a character occurs in a text. *)
Definition occurrences (c : N) (s : str) : nat := count_occ N.eq_dec s c.

(** ASCII letters and digits. *)
Definition alphanumeric (c : N) : bool :=
  Xml.between 48 57 c || Xml.between 65 90 c || Xml.between 97 122 c.

(** The status codes [raise_for_status] raises for. *)
Definition error_status (r : Requests.Response) : bool :=
  ((400 <=? Requests.status_code r) && (Requests.status_code r <? 600))%N.



(** * Properties *)

(** ** The monad and the handler *)

Section HandlerFacts.

Context {Self : Type} {T : Tracktor Self}.

Lemma attempt_raises args st e st1 :
  raises_in args st e st1 ->
  ResponseHandler.attempt raise_for_status (fun a => _make_request a) args st
  = (Raise e, st1).
Proof.
  unfold ResponseHandler.attempt, bind.
  intros [H | (r & st0 & H & H')].
  - now rewrite H.
  - now rewrite H, H'.
Qed.

Lemma attempt_returns args st r st0 st1 :
  _make_request args st = (Return r, st0) ->
  raise_for_status r st0 = (Return tt, st1) ->
  ResponseHandler.attempt raise_for_status (fun a => _make_request a) args st
  = (Return r, st1).
Proof.
  unfold ResponseHandler.attempt, bind, ret.
  intros H H'. now rewrite H, H'.
Qed.

Lemma attempt_cases args st :
  (exists r st0 st1,
      _make_request args st = (Return r, st0)
      /\ raise_for_status r st0 = (Return tt, st1)
      /\ ResponseHandler.attempt raise_for_status
           (fun a => _make_request a) args st = (Return r, st1))
  \/ (exists e st1,
        raises_in args st e st1
        /\ ResponseHandler.attempt raise_for_status
             (fun a => _make_request a) args st = (Raise e, st1)).
Proof.
  destruct (_make_request args st) as [[r | e] st0] eqn:H.
  - destruct (raise_for_status r st0) as [[[] | e] st1] eqn:H'.
    + left. exists r, st0, st1. repeat split; trivial.
      now apply attempt_returns with st0.
    + right. exists e, st1.
      assert (R : raises_in args st e st1)
        by (right; exists r, st0; now split).
      split; [exact R | now apply attempt_raises].
  - right. exists e, st0.
    assert (R : raises_in args st e st0) by now left.
    split; [exact R | now apply attempt_raises].
Qed.

(** An [HTTPError] is an [Exception]. *)
Lemma HTTPError_is_Exception e :
  isinstance e (Builtin HTTPError) = true ->
  isinstance e (Builtin Exception) = true.
Proof.
  unfold isinstance. induction (exn_class e) as [b | n c IH]; simpl.
  - destruct b; simpl; intros H; try discriminate; reflexivity.
  - intros H. rewrite (IH H). reflexivity.
Qed.

(** What [track] does when the call or the check raises [e]: a caught
    exception costs one warning, another goes on. *)
Lemma track_on_exception args st e st1 :
  raises_in args st e st1 ->
  track args st =
    if isinstance e (Builtin Exception)
    then (Return None, (fst st1, logged (warning_of e) (snd st1)))
    else (Raise e, st1).
Proof.
  intros R. unfold track, ResponseHandler.handler, try_except_else.
  rewrite (attempt_raises R). simpl. unfold warning_of.
  destruct (isinstance e (Builtin HTTPError)) eqn:Hh.
  - rewrite (HTTPError_is_Exception _ Hh). destruct st1 as [s w]. reflexivity.
  - destruct (isinstance e (Builtin Exception)); [|reflexivity].
    destruct st1 as [s w]. reflexivity.
Qed.

Lemma track_on_return args st r st0 st1 :
  _make_request args st = (Return r, st0) ->
  raise_for_status r st0 = (Return tt, st1) ->
  track args st = (Return (Some r), st1).
Proof.
  intros H H'. unfold track, ResponseHandler.handler, try_except_else.
  now rewrite (attempt_returns _ _ H H').
Qed.

End HandlerFacts.

(** ** Claims about [track] *)

Lemma snoc_not_self {A} (l : list A) (x : A) : l <> l ++ [x].
Proof.
  intros H. apply (f_equal (@List.length A)) in H.
  rewrite length_app in H. simpl in H. lia.
Qed.

Lemma startswith_app (p s : str) : startswith p (p ++ s) = true.
Proof.
  induction p as [| c p IH]; simpl; [reflexivity|].
  now rewrite N.eqb_refl, IH.
Qed.

Lemma endswith_app (s suffix : str) : endswith (s ++ suffix) suffix = true.
Proof.
  unfold endswith. rewrite rev_app_distr. apply startswith_app.
Qed.

(** C1, as the code has it: when [_make_request] or the check of the
    response raises an exception that is an instance of [Exception] (an
    [HTTPError] or any other), [track] returns no value, the log gets
    exactly one record, a warning, and nothing is raised; an exception
    that is not an [Exception] goes on to the caller and nothing is
    logged. *)
Theorem track_absorbs_Exception {Self} {T : Tracktor Self}
    (args : Args) (st : Self * world) (e : exn) (st1 : Self * world) :
  raises_in args st e st1 ->
  (isinstance e (Builtin Exception) = true ->
   exists line,
     track args st = (Return None, (fst st1, logged line (snd st1)))
     /\ Logging.levelname line = Logging.WARNING)
  /\ (isinstance e (Builtin Exception) = false ->
      track args st = (Raise e, st1)).
Proof.
  intros R. rewrite (track_on_exception R). split; intros ->.
  - exists (warning_of e). split; reflexivity.
  - reflexivity.
Qed.

Lemma track_absorbs_Exception_witness :
  exists line,
    track sample_numbers (sample_tracker, failing connection_error)
    = (Return None,
       (UspsTracktor.mk (lit "123USERID")
          (UspsTracktor.url sample_tracker)
          (UspsTracktor.params
             (fst (snd (UspsTracktor._make_request sample_numbers
                          (sample_tracker, failing connection_error)))))
          (Some sample_numbers),
        logged line
          (snd (snd (UspsTracktor._make_request sample_numbers
                       (sample_tracker, failing connection_error))))))
    /\ Logging.levelname line = Logging.WARNING.
Proof.
  assert (R : raises_in (T := UspsTracktor_Tracktor) sample_numbers
                (sample_tracker, failing connection_error) connection_error
                (snd (UspsTracktor._make_request sample_numbers
                        (sample_tracker, failing connection_error)))).
  { left. vm_compute. reflexivity. }
  destruct (track_absorbs_Exception R) as [H _].
  destruct (H eq_refl) as [line [E L]].
  exists line. split; [exact E | exact L].
Defined.

(** C1 as it is written fails: a [KeyboardInterrupt] during the request
    is not absorbed. *)
Lemma track_lets_KeyboardInterrupt_through :
  raises_in (T := UspsTracktor_Tracktor) sample_numbers
    (sample_tracker, failing keyboard_interrupt) keyboard_interrupt
    (snd (UspsTracktor._make_request sample_numbers
            (sample_tracker, failing keyboard_interrupt)))
  /\ fst (track sample_numbers (sample_tracker, failing keyboard_interrupt))
     = Raise keyboard_interrupt
  /\ log (snd (snd (track sample_numbers
                      (sample_tracker, failing keyboard_interrupt)))) = [].
Proof.
  split; [left; vm_compute; reflexivity|].
  split; vm_compute; reflexivity.
Qed.

(** C2: when [_make_request] returns a response and the check of the
    response raises nothing, [track] returns that very response, and
    leaves the state, the log with it, as the call and the check left
    it: [track] logs nothing. *)
Theorem track_returns_the_response {Self} {T : Tracktor Self}
    (args : Args) (st : Self * world) (r : Resp) (st0 st1 : Self * world) :
  _make_request args st = (Return r, st0) ->
  raise_for_status r st0 = (Return tt, st1) ->
  track args st = (Return (Some r), st1)
  /\ log (snd (snd (track args st))) = log (snd st1).
Proof.
  intros H H'. rewrite (track_on_return _ _ H H'). split; reflexivity.
Qed.

Lemma track_returns_the_response_witness :
  fst (track sample_numbers (sample_tracker, answering ok_response))
  = Return (Some ok_response)
  /\ log (snd (snd (track sample_numbers
                      (sample_tracker, answering ok_response)))) = [].
Proof.
  destruct (track_returns_the_response (T := UspsTracktor_Tracktor)
              sample_numbers (sample_tracker, answering ok_response)
              (r := ok_response)
              (st0 := snd (UspsTracktor._make_request sample_numbers
                             (sample_tracker, answering ok_response)))
              (st1 := snd (UspsTracktor._make_request sample_numbers
                             (sample_tracker, answering ok_response))))
    as [E L].
  - vm_compute. reflexivity.
  - vm_compute. reflexivity.
  - rewrite L, E. split; reflexivity.
Defined.

(** C10, as the code has it: when [_make_request] or the check of the
    response raises an instance of [Exception], [track] logs exactly one
    record, a warning that tells the kind, and the caller gets no value
    whatever the kind: for an [HTTPError], which is always such an
    instance, the message is the text of the error followed by
    [ - Issue with request], for any other [Exception] the text followed
    by [ - issue in program], and the ending of the message decides
    which.  An exception that is not an [Exception] is not logged and
    goes on to the caller. *)
Theorem warning_tells_the_kind {Self} {T : Tracktor Self}
    (args : Args) (st : Self * world) (e : exn) (st1 : Self * world) :
  raises_in args st e st1 ->
  (isinstance e (Builtin HTTPError) = true ->
   isinstance e (Builtin Exception) = true)
  /\ (isinstance e (Builtin Exception) = true ->
      let line :=
        Logging.mk_record Logging.WARNING
          (exn_str e ++ (if isinstance e (Builtin HTTPError)
                         then lit " - Issue with request"
                         else lit " - issue in program")) in
      track args st = (Return None, (fst st1, logged line (snd st1)))
      /\ endswith (Logging.message line) (lit " - Issue with request")
         = isinstance e (Builtin HTTPError)
      /\ endswith (Logging.message line) (lit " - issue in program")
         = negb (isinstance e (Builtin HTTPError)))
  /\ (isinstance e (Builtin Exception) = false ->
      track args st = (Raise e, st1)).
Proof.
  intros R. rewrite (track_on_exception R).
  split; [apply HTTPError_is_Exception|].
  split; intros ->; [| reflexivity].
  cbv zeta. unfold warning_of. cbn [Logging.message].
  split; [reflexivity|].
  destruct (isinstance e (Builtin HTTPError)); split.
  - apply endswith_app.
  - unfold endswith. rewrite rev_app_distr. reflexivity.
  - unfold endswith. rewrite rev_app_distr. reflexivity.
  - apply endswith_app.
Qed.

Lemma warning_tells_the_kind_witness :
  track sample_numbers (sample_tracker, answering error_response)
  = (Return None,
     (usps_after (lit "123USERID") sample_numbers,
      logged (Logging.mk_record Logging.WARNING
                (lit "500 Server Error: Internal Server Error for url: http://production.shippingapis.com/ShippingAPI.dll - Issue with request"))
        (called (usps_request (lit "123USERID") sample_numbers)
           (answering error_response))))
  /\ track sample_numbers (sample_tracker, failing connection_error)
     = (Return None,
        (usps_after (lit "123USERID") sample_numbers,
         logged (Logging.mk_record Logging.WARNING
                   (lit "Connection refused - issue in program"))
           (called (usps_request (lit "123USERID") sample_numbers)
              (failing connection_error)))).
Proof.
  assert (R1 : raises_in (T := UspsTracktor_Tracktor) sample_numbers
                 (sample_tracker, answering error_response)
                 (mk_exn (Builtin HTTPError)
                    (Requests.http_error_msg error_response))
                 (snd (UspsTracktor._make_request sample_numbers
                         (sample_tracker, answering error_response)))).
  { right. exists error_response.
    exists (snd (UspsTracktor._make_request sample_numbers
                   (sample_tracker, answering error_response))).
    split; vm_compute; reflexivity. }
  assert (R2 : raises_in (T := UspsTracktor_Tracktor) sample_numbers
                 (sample_tracker, failing connection_error) connection_error
                 (snd (UspsTracktor._make_request sample_numbers
                         (sample_tracker, failing connection_error)))).
  { left. vm_compute. reflexivity. }
  destruct (warning_tells_the_kind R1) as (_ & H1 & _).
  destruct (warning_tells_the_kind R2) as (_ & H2 & _).
  destruct (H1 eq_refl) as [E1 _]. destruct (H2 eq_refl) as [E2 _].
  split; [exact E1 | exact E2].
Defined.

(** C10 as it is written fails: a [KeyboardInterrupt] is another
    exception than an HTTP-status error, and for it [track] logs no
    message and the caller gets the exception, not an absent result. *)
Lemma KeyboardInterrupt_is_not_logged :
  raises_in (T := UspsTracktor_Tracktor) sample_numbers
    (sample_tracker, failing keyboard_interrupt) keyboard_interrupt
    (snd (UspsTracktor._make_request sample_numbers
            (sample_tracker, failing keyboard_interrupt)))
  /\ isinstance keyboard_interrupt (Builtin HTTPError) = false
  /\ log (snd (snd (track sample_numbers
                      (sample_tracker, failing keyboard_interrupt))))
     = log (failing keyboard_interrupt)
  /\ fst (track sample_numbers (sample_tracker, failing keyboard_interrupt))
     <> Return None.
Proof.
  split; [left; vm_compute; reflexivity|].
  split; [reflexivity|].
  split; [vm_compute; reflexivity|].
  vm_compute. discriminate.
Qed.

(** ** The codec *)

Lemma base64_digits (c : N) :
  (c = 64 * (c / 64) + c mod 64
   /\ c = 4096 * (c / 4096) + 64 * ((c / 64) mod 64) + c mod 64
   /\ c = 262144 * (c / 262144) + 4096 * ((c / 4096) mod 64)
          + 64 * ((c / 64) mod 64) + c mod 64
   /\ c mod 64 < 64 /\ (c / 64) mod 64 < 64 /\ (c / 4096) mod 64 < 64)%N.
Proof.
  assert (E2 : (c / 4096 = c / 64 / 64)%N) by now rewrite N.Div0.div_div.
  assert (E3 : (c / 262144 = c / 4096 / 64)%N) by now rewrite N.Div0.div_div.
  pose proof (N.div_mod' c 64) as D0.
  pose proof (N.div_mod' (c / 64) 64) as D1.
  pose proof (N.div_mod' (c / 4096) 64) as D2.
  pose proof (N.mod_lt c 64 ltac:(discriminate)) as L0.
  pose proof (N.mod_lt (c / 64) 64 ltac:(discriminate)) as L1.
  pose proof (N.mod_lt (c / 4096) 64 ltac:(discriminate)) as L2.
  rewrite <- E2 in D1. rewrite <- E3 in D2.
  set (r0 := (c mod 64)%N) in *. set (r1 := ((c / 64) mod 64)%N) in *.
  set (r2 := ((c / 4096) mod 64)%N) in *.
  set (q1 := (c / 64)%N) in *. set (q2 := (c / 4096)%N) in *.
  set (q3 := (c / 262144)%N) in *.
  clearbody r0 r1 r2 q1 q2 q3. lia.
Qed.

Ltac base64 c :=
  let H := fresh in
  pose proof (base64_digits c) as H;
  destruct H as (? & ? & ? & ? & ? & ?);
  generalize dependent (c / 262144)%N; intros ?;
  generalize dependent ((c / 4096) mod 64)%N; intros ?;
  generalize dependent (c / 4096)%N; intros ?;
  generalize dependent ((c / 64) mod 64)%N; intros ?;
  generalize dependent (c / 64)%N; intros ?;
  generalize dependent (c mod 64)%N; intros ?.

Ltac compare_N :=
  repeat match goal with
    | |- context [(?a <? ?b)%N] => destruct (N.ltb_spec a b); try lia
    | |- context [(?a <=? ?b)%N] => destruct (N.leb_spec a b); try lia
    end.


Lemma decode_ascii (a : str) (rest : bytes) :
  Forall (fun b => b < 128)%N a ->
  Utf8.decode (a ++ rest) = prepend a (Utf8.decode rest).
Proof.
  induction 1 as [| b a Hb _ IH]; simpl app.
  - now destruct (Utf8.decode rest).
  - cbn [Utf8.decode]. compare_N. rewrite IH.
    now destruct (Utf8.decode rest).
Qed.

Lemma digits_ascii fuel : forall n acc,
  Forall (fun b => b < 128)%N acc ->
  Forall (fun b => b < 128)%N (digits fuel n acc).
Proof.
  induction fuel as [| fuel IH]; intros n acc H; cbn [digits]; [exact H|].
  assert (D : (48 + n mod 10 < 128)%N).
  { pose proof (N.mod_lt n 10 ltac:(discriminate)).
    generalize dependent (n mod 10)%N. intros. lia. }
  destruct (n <? 10)%N; [| apply IH]; now constructor.
Qed.

Lemma charref_ascii c : Forall (fun b => b < 128)%N (Utf8.charref c).
Proof.
  unfold Utf8.charref. apply Forall_app. split; [| apply Forall_app; split].
  - repeat (constructor; [reflexivity|]). constructor.
  - unfold str_of_N. apply digits_ascii. constructor.
  - repeat (constructor; [reflexivity|]). constructor.
Qed.

Lemma decode_encode_char (c : N) (rest : bytes) :
  Utf8.decode (Utf8.encode_char c ++ rest) = prepend (replaced c) (Utf8.decode rest).
Proof.
  unfold Utf8.encode_char, replaced.
  destruct (Utf8.encodable c) eqn:E; cbn [negb].
  2:{ apply decode_ascii, charref_ascii. }
  unfold Utf8.encodable, Utf8.is_surrogate in E.
  apply andb_prop in E. destruct E as [E1 E2].
  apply N.ltb_lt in E1.
  assert (S : (c < 55296 \/ 57343 < c)%N).
  { destruct (N.leb_spec 55296 c), (N.leb_spec c 57343); try discriminate; lia. }
  clear E2.
  destruct (N.ltb_spec c 128); [| destruct (N.ltb_spec c 2048);
                                  [| destruct (N.ltb_spec c 65536)]];
    cbn [app Utf8.decode].
  - compare_N. now destruct (Utf8.decode rest).
  - base64 c. intros. unfold Utf8.continuation. compare_N.
    cbn [andb].
    match goal with |- context [Utf8.cons_char ?x _] => replace x with c by lia end.
    now destruct (Utf8.decode rest).
  - base64 c. intros. unfold Utf8.continuation, Utf8.is_surrogate.
    match goal with |- context [Utf8.cons_char ?x _] => replace x with c by lia end.
    compare_N; cbn [andb negb]; now destruct (Utf8.decode rest).
  - base64 c. intros. unfold Utf8.continuation.
    match goal with |- context [Utf8.cons_char ?x _] => replace x with c by lia end.
    compare_N; cbn [andb negb]; now destruct (Utf8.decode rest).
Qed.

Theorem decode_encode (s : str) :
  Utf8.decode (Utf8.encode s) = Return (flat_map replaced s).
Proof.
  induction s as [| c s IH]; [reflexivity|].
  cbn [Utf8.encode flat_map]. fold (Utf8.encode s).
  now rewrite decode_encode_char, IH.
Qed.

(** ** The tree and its text *)

Lemma replace_absent c new text :
  contains c text = false -> replace c new text = text.
Proof.
  unfold contains, replace. induction text as [| x text IH]; [reflexivity|].
  cbn [existsb flat_map]. intros H. apply orb_false_elim in H. destruct H as [H1 H2].
  rewrite N.eqb_sym, H1, (IH H2). reflexivity.
Qed.

Lemma guarded_replace c new text :
  (if contains c text then replace c new text else text) = replace c new text.
Proof.
  destruct (contains c text) eqn:E; [reflexivity|].
  now rewrite replace_absent.
Qed.

Lemma flat_map_flat_map {A B C} (f : A -> list B) (g : B -> list C) l :
  flat_map g (flat_map f l) = flat_map (fun x => flat_map g (f x)) l.
Proof.
  induction l as [| x l IH]; [reflexivity|].
  cbn [flat_map]. now rewrite flat_map_app, IH.
Qed.

Ltac case_eqb c k :=
  destruct (N.eqb_spec c k) as [-> | ?]; [try reflexivity |].

Lemma escape_attrib_chars text :
  ET._escape_attrib text = flat_map escaped_char text.
Proof.
  unfold ET._escape_attrib. rewrite !guarded_replace. unfold replace.
  rewrite !flat_map_flat_map. apply flat_map_ext. intros c.
  unfold escaped_char.
  case_eqb c 38%N. case_eqb c 60%N. case_eqb c 62%N. case_eqb c 34%N.
  case_eqb c 13%N. case_eqb c 10%N. case_eqb c 9%N.
  cbn. repeat (match goal with
    | |- context [N.eqb ?a ?b] => destruct (N.eqb_spec a b); [congruence|]
    end; cbn [flat_map app]). reflexivity.
Qed.

(** The loop of lines 103-105 puts one [TrackID] per tracking number
    under the element that is open. *)
Lemma build_children numbers : forall t a cs up r,
  for_each numbers (fun tracking_number =>
    ET.start (lit "TrackID") [ (lit "ID", tracking_number) ] ;;;
    ET.end_ (lit "TrackID"))
    (ET.mk_TreeBuilder (ET.mk_Element t a None cs None :: up) r)
  = (Return tt,
     ET.mk_TreeBuilder
       (ET.mk_Element t a None (cs ++ map TrackID numbers) None :: up) r).
Proof.
  induction numbers as [| n numbers IH]; intros t a cs up r.
  - cbn [for_each map]. now rewrite app_nil_r.
  - cbn [for_each map]. unfold bind at 1. unfold bind at 1.
    cbn. rewrite IH. now rewrite <- app_assoc.
Qed.

Lemma build_tree user_id numbers :
  fst (UspsTracktor.build user_id numbers ET.TreeBuilder_new)
  = Return (TrackRequest user_id numbers).
Proof.
  unfold UspsTracktor.build, bind, ET.TreeBuilder_new.
  cbn [ET.start ET.elem ET.root]. rewrite build_children. reflexivity.
Qed.

Lemma serialize_TrackID short n :
  short = false ->
  ET._serialize_xml short (TrackID n) = TrackID_text n.
Proof.
  intros ->. unfold TrackID, TrackID_text. cbn [ET._serialize_xml flat_map].
  unfold ET.serialize_attrib. cbn [fst snd]. rewrite escape_attrib_chars.
  simpl. rewrite <- !app_assoc. reflexivity.
Qed.

Lemma write_TrackRequest user_id numbers :
  ET.write (TrackRequest user_id numbers) (lit "UTF-8") false
  = Utf8.encode (request_text user_id numbers).
Proof.
  unfold ET.write, request_text. f_equal.
  unfold TrackRequest. cbn [ET._serialize_xml].
  rewrite (flat_map_concat_map (ET._serialize_xml false)), map_map.
  rewrite (map_ext _ TrackID_text)
    by (intros n; now apply serialize_TrackID).
  rewrite <- flat_map_concat_map.
  cbn [flat_map]. unfold ET.serialize_attrib. cbn [fst snd].
  rewrite escape_attrib_chars.
  rewrite orb_true_r.
  simpl. rewrite <- !app_assoc. reflexivity.
Qed.

(** [_build_xml] returns, and what it returns. *)
Lemma build_xml_returns user_id url params numbers w :
  UspsTracktor._build_xml
    (UspsTracktor.mk user_id url params (Some numbers), w)
  = (Return (flat_map replaced (request_text user_id numbers)),
     (UspsTracktor.mk user_id url params (Some numbers), w)).
Proof.
  unfold UspsTracktor._build_xml, bind, get_self, lift.
  cbn [fst snd UspsTracktor.tracking_numbers UspsTracktor.user_id].
  rewrite build_tree, write_TrackRequest, decode_encode. reflexivity.
Qed.

(** ** Reading the text back *)

(** An attribute value as [_escape_attrib] writes it reads back as it
    was. *)
Lemma att_value_escaped (v rest : str) :
  Xml.att_value 34 None (flat_map escaped_char v ++ 34%N :: rest)
  = Some (v, rest).
Proof.
  induction v as [| c v IH]; [reflexivity|].
  cbn [flat_map]. rewrite <- app_assoc. unfold escaped_char at 1.
  case_eqb c 38%N; [cbn; now rewrite IH|].
  case_eqb c 60%N; [cbn; now rewrite IH|].
  case_eqb c 62%N; [cbn; now rewrite IH|].
  case_eqb c 34%N; [cbn; now rewrite IH|].
  case_eqb c 13%N; [cbn; now rewrite IH|].
  case_eqb c 10%N; [cbn; now rewrite IH|].
  case_eqb c 9%N; [cbn; now rewrite IH|].
  cbn [app Xml.att_value].
  repeat match goal with
    | |- context [N.eqb c ?b] => destruct (N.eqb_spec c b); [congruence|]
    end.
  rewrite IH. unfold Xml.is_space.
  destruct (N.eqb_spec c 32) as [-> | ?]; [reflexivity|].
  repeat match goal with
    | |- context [N.eqb c ?b] => destruct (N.eqb_spec c b); [congruence|]
    end.
  reflexivity.
Qed.

Lemma parse_USERID fuel (v rest : str) :
  Xml.parse_attributes (S (S fuel))
    (lit " USERID=" ++ [34%N] ++ flat_map escaped_char v ++ [34%N] ++ lit ">" ++ rest)
  = Some ([ (lit "USERID", v) ], lit ">" ++ rest).
Proof.
  cbn. rewrite att_value_escaped. reflexivity.
Qed.

Lemma parse_ID fuel (v rest : str) :
  Xml.parse_attributes (S (S fuel))
    (lit " ID=" ++ [34%N] ++ flat_map escaped_char v ++ [34%N] ++ lit ">" ++ rest)
  = Some ([ (lit "ID", v) ], lit ">" ++ rest).
Proof.
  cbn. rewrite att_value_escaped. reflexivity.
Qed.

(** How an element with a start tag and an end tag is read. *)
Lemma parse_element_tags fuel s s0 name s1 atts s2 kids s3 s4 rest :
  Xml.expect [60%N] s = Some s0 ->
  Xml.parse_name s0 = Some (name, s1) ->
  Xml.parse_attributes fuel s1 = Some (atts, 62%N :: s2) ->
  Xml.distinct (map fst atts) = true ->
  Xml.parse_content (Xml.parse_element fuel) fuel s2 = Some (kids, s3) ->
  Xml.expect (lit "</" ++ name) s3 = Some s4 ->
  Xml.expect [62%N] (Xml.skip_space s4) = Some rest ->
  Xml.parse_element (S fuel) s = Some (Xml.Node name atts kids false, rest).
Proof.
  intros H0 H1 H2 H3 H4 H5 H6. cbn [Xml.parse_element].
  rewrite H0, H1, H2, H3, H4, H5, H6. reflexivity.
Qed.

Lemma parse_TrackID fuel (n rest : str) :
  Xml.parse_element (S (S (S fuel))) (TrackID_text n ++ rest)
  = Some (TrackID_node n, rest).
Proof.
  unfold TrackID_text. rewrite <- !app_assoc.
  apply parse_element_tags with
    (s0 := lit "TrackID ID=" ++ [34%N] ++ flat_map escaped_char n ++ [34%N]
           ++ lit "></TrackID>" ++ rest)
    (s1 := lit " ID=" ++ [34%N] ++ flat_map escaped_char n ++ [34%N]
           ++ lit ">" ++ lit "</TrackID>" ++ rest)
    (s2 := lit "</TrackID>" ++ rest)
    (s3 := lit "</TrackID>" ++ rest)
    (s4 := lit ">" ++ rest);
    try reflexivity.
  exact (parse_ID fuel n _).
Qed.

Lemma parse_TrackIDs numbers : forall fuel fuel' rest,
  List.length numbers < fuel ->
  Xml.parse_content (Xml.parse_element (S (S (S fuel')))) fuel
    (flat_map TrackID_text numbers ++ lit "</" ++ rest)
  = Some (map TrackID_node numbers, lit "</" ++ rest).
Proof.
  induction numbers as [| n numbers IH]; intros fuel fuel' rest L;
    (destruct fuel as [| fuel]; [cbn in L; lia|]).
  - reflexivity.
  - cbn [flat_map map Xml.parse_content]. rewrite <- app_assoc.
    replace (startswith (lit "</")
               (TrackID_text n ++ flat_map TrackID_text numbers ++ lit "</" ++ rest))
      with false by reflexivity.
    rewrite parse_TrackID. rewrite IH by (cbn in L; lia). reflexivity.
Qed.

Lemma parse_TrackRequest fuel user_id numbers :
  List.length numbers < S (S (S fuel)) ->
  Xml.parse_element (S (S (S (S fuel))))
    (lit "<TrackRequest USERID=" ++ [34%N] ++ flat_map escaped_char user_id
     ++ [34%N] ++ lit ">" ++ flat_map TrackID_text numbers
     ++ lit "</TrackRequest>")
  = Some (Xml.Node (lit "TrackRequest") [ (lit "USERID", user_id) ]
            (map TrackID_node numbers) false, []).
Proof.
  intros L.
  apply parse_element_tags with
    (s0 := lit "TrackRequest USERID=" ++ [34%N] ++ flat_map escaped_char user_id
           ++ [34%N] ++ lit ">" ++ flat_map TrackID_text numbers
           ++ lit "</TrackRequest>")
    (s1 := lit " USERID=" ++ [34%N] ++ flat_map escaped_char user_id
           ++ [34%N] ++ lit ">" ++ flat_map TrackID_text numbers
           ++ lit "</TrackRequest>")
    (s2 := flat_map TrackID_text numbers ++ lit "</" ++ lit "TrackRequest>")
    (s3 := lit "</" ++ lit "TrackRequest>")
    (s4 := lit ">");
    try reflexivity.
  - exact (parse_USERID (S fuel) user_id _).
  - now apply parse_TrackIDs.
Qed.

Lemma TrackID_texts_length numbers :
  List.length numbers <= List.length (flat_map TrackID_text numbers).
Proof.
  induction numbers as [| n numbers IH]; [reflexivity|].
  cbn [flat_map List.length]. rewrite length_app.
  unfold TrackID_text at 1. rewrite length_app. cbn [lit List.length map list_ascii_of_string].
  lia.
Qed.

Lemma is_char_encodable c : Xml.is_char c = true -> Utf8.encodable c = true.
Proof.
  unfold Xml.is_char, Utf8.encodable, Utf8.is_surrogate.
  repeat match goal with
    | |- context [N.eqb c ?k] => destruct (N.eqb_spec c k); [subst; reflexivity|]
    end.
  compare_N; cbn; congruence.
Qed.

Lemma xml_chars_replaced s : xml_chars s -> flat_map replaced s = s.
Proof.
  unfold xml_chars. induction s as [| c s IH]; [reflexivity|].
  cbn [forallb flat_map]. intros H. apply andb_prop in H. destruct H as [H1 H2].
  unfold replaced at 1. now rewrite (is_char_encodable _ H1), IH.
Qed.

Lemma xml_chars_app a b : xml_chars a -> xml_chars b -> xml_chars (a ++ b).
Proof.
  unfold xml_chars. intros Ha Hb. now rewrite forallb_app, Ha, Hb.
Qed.

Lemma xml_chars_escaped s : xml_chars s -> xml_chars (flat_map escaped_char s).
Proof.
  induction s as [| c s IH]; [reflexivity|].
  unfold xml_chars in *. cbn [forallb flat_map]. intros H.
  apply andb_prop in H. destruct H as [H1 H2].
  apply xml_chars_app; [| now apply IH].
  unfold escaped_char.
  repeat match goal with
    | |- context [N.eqb c ?k] => destruct (N.eqb_spec c k); [reflexivity|]
    end.
  unfold xml_chars. cbn [forallb]. now rewrite H1.
Qed.

Lemma xml_chars_TrackIDs numbers :
  Forall xml_chars numbers -> xml_chars (flat_map TrackID_text numbers).
Proof.
  induction 1 as [| n numbers Hn _ IH]; [reflexivity|].
  cbn [flat_map]. apply xml_chars_app; [| exact IH].
  unfold TrackID_text.
  repeat (apply xml_chars_app; try reflexivity).
  now apply xml_chars_escaped.
Qed.

Lemma xml_chars_request user_id numbers :
  xml_chars user_id -> Forall xml_chars numbers ->
  xml_chars (request_text user_id numbers).
Proof.
  intros Hu Hn. unfold request_text.
  repeat (apply xml_chars_app; try reflexivity).
  - now apply xml_chars_escaped.
  - now apply xml_chars_TrackIDs.
Qed.

Lemma request_text_length user_id numbers :
  exists fuel,
    S (List.length (request_text user_id numbers)) = S (S (S (S fuel)))
    /\ List.length numbers < S (S (S fuel)).
Proof.
  pose proof (TrackID_texts_length numbers) as L.
  exists (List.length (request_text user_id numbers) - 3).
  unfold request_text in *. rewrite !length_app.
  cbn [lit List.length map list_ascii_of_string ET.newline]. lia.
Qed.

(** The text of a request reads as the document of the request. *)
Lemma parse_request user_id numbers :
  xml_chars user_id -> Forall xml_chars numbers ->
  Xml.parse_document (request_text user_id numbers)
  = Some (request_document user_id numbers).
Proof.
  intros Hu Hn. unfold Xml.parse_document.
  rewrite (xml_chars_request Hu Hn).
  destruct (request_text_length user_id numbers) as (fuel & -> & L).
  unfold request_text at 1.
  replace (Xml.parse_declaration _)
    with (Some (Xml.mk_declaration (lit "1.0") (Some (lit "UTF-8")),
                ET.newline ++ lit "<TrackRequest USERID=" ++ [34%N]
                  ++ flat_map escaped_char user_id ++ [34%N] ++ lit ">"
                  ++ flat_map TrackID_text numbers ++ lit "</TrackRequest>"))
    by reflexivity.
  replace (Xml.skip_space _)
    with (lit "<TrackRequest USERID=" ++ [34%N]
            ++ flat_map escaped_char user_id ++ [34%N] ++ lit ">"
            ++ flat_map TrackID_text numbers ++ lit "</TrackRequest>")
    by reflexivity.
  rewrite (@parse_TrackRequest fuel user_id numbers L). reflexivity.
Qed.

(** ** The two carriers *)

(** The check of a response leaves the state as it was. *)
Lemma raise_for_status_state {St} (r : Requests.Response) (st : St) :
  snd (Requests.raise_for_status r st) = st.
Proof.
  unfold Requests.raise_for_status. now destruct (Requests.http_error_msg r).
Qed.

(** [track] leaves the instance as [_make_request] does, when the check
    of the response changes nothing. *)
Lemma track_instance {Self} {T : Tracktor Self} (args : Args) (st : Self * world) :
  (forall r st0, snd (raise_for_status r st0) = st0) ->
  fst (snd (track args st)) = fst (snd (_make_request args st)).
Proof.
  intros C.
  destruct (attempt_cases args st) as [(r & st0 & st1 & H & H' & _) | (e & st1 & R & _)].
  - rewrite (track_on_return _ _ H H'), H. cbn [snd].
    now rewrite <- (C r st0), H'.
  - rewrite (track_on_exception R).
    assert (E : fst st1 = fst (snd (_make_request args st))).
    { destruct R as [H | (r & st0 & H & H')].
      - now rewrite H.
      - rewrite H. cbn [snd]. now rewrite <- (C r st0), H'. }
    now destruct (isinstance e (Builtin Exception)).
Qed.

Section Ups.

Context {U : Unicode}.

Lemma ups_make_request self numbers w :
  ups_state self ->
  UpsTracktor._make_request numbers (self, w)
  = (carrier w (sent w) (ups_request numbers),
     (ups_after numbers, called (ups_request numbers) w)).
Proof.
  intros [-> | [previous ->]]; reflexivity.
Qed.

Lemma ups_after_calls calls : forall self w,
  ups_state self ->
  ups_state (fst (after_calls (T := UpsTracktor_Tracktor) calls (self, w))).
Proof.
  induction calls as [| [numbers | numbers] calls IH]; intros self w H.
  - exact H.
  - cbn [after_calls].
    change (@_make_request _ UpsTracktor_Tracktor numbers (self, w))
      with (UpsTracktor._make_request numbers (self, w)).
    rewrite (ups_make_request numbers w H). cbn [snd].
    apply IH. right. now exists numbers.
  - cbn [after_calls].
    destruct (track numbers (self, w)) as [o [self' w']] eqn:E.
    cbn [snd]. apply IH.
    assert (E' : self' = fst (snd (@track _ UpsTracktor_Tracktor numbers (self, w))))
      by now rewrite E.
    rewrite track_instance in E'
      by (intros; apply raise_for_status_state).
    change (@_make_request _ UpsTracktor_Tracktor numbers (self, w))
      with (UpsTracktor._make_request numbers (self, w)) in E'.
    rewrite (ups_make_request numbers w H) in E'. cbn [fst snd] in E'.
    right. now exists numbers.
Qed.

End Ups.

Lemma usps_make_request user_id self numbers w :
  usps_state user_id self ->
  UspsTracktor._make_request numbers (self, w)
  = (carrier w (sent w) (usps_request user_id numbers),
     (usps_after user_id numbers, called (usps_request user_id numbers) w)).
Proof.
  intros [-> | [previous ->]];
    unfold UspsTracktor._make_request;
    unfold bind at 1; unfold get_self at 1; cbn [fst snd];
    unfold bind at 1; unfold set_self at 1; cbn [fst snd];
    unfold bind at 1;
    cbn [usps_after UspsTracktor.__init__ UspsTracktor.user_id UspsTracktor.url
         UspsTracktor.params];
    rewrite build_xml_returns; reflexivity.
Qed.

Lemma usps_after_calls user_id calls : forall self w,
  usps_state user_id self ->
  usps_state user_id
    (fst (after_calls (T := UspsTracktor_Tracktor) calls (self, w))).
Proof.
  induction calls as [| [numbers | numbers] calls IH]; intros self w H.
  - exact H.
  - cbn [after_calls].
    change (@_make_request _ UspsTracktor_Tracktor numbers (self, w))
      with (UspsTracktor._make_request numbers (self, w)).
    rewrite (usps_make_request numbers w H). cbn [snd].
    apply IH. right. now exists numbers.
  - cbn [after_calls].
    destruct (track numbers (self, w)) as [o [self' w']] eqn:E.
    cbn [snd]. apply IH.
    assert (E' : self' = fst (snd (@track _ UspsTracktor_Tracktor numbers (self, w))))
      by now rewrite E.
    rewrite track_instance in E'
      by (intros; apply raise_for_status_state).
    change (@_make_request _ UspsTracktor_Tracktor numbers (self, w))
      with (UspsTracktor._make_request numbers (self, w)) in E'.
    rewrite (usps_make_request numbers w H) in E'. cbn [fst snd] in E'.
    right. now exists numbers.
Qed.

(** ** Claims about the carriers *)

(** C3, as the code has it: when the user identifier and the tracking
    numbers hold only characters XML allows, [_build_xml] returns a text
    that is a well-formed document: it reads as a declaration of version
    1.0 and encoding UTF-8 followed by one root element [TrackRequest],
    whose only attribute [USERID] has the user identifier as its value,
    and whose children are one [TrackID] per tracking number, in the
    order of the list, each with the only attribute [ID] whose value is
    the tracking number, no children, and a start tag and an end tag (no
    empty-element tag).  The instance and the world are left as they
    were. *)
Theorem build_xml_well_formed (self : UspsTracktor.t) (numbers : list str)
    (w : world) :
  UspsTracktor.tracking_numbers self = Some numbers ->
  xml_chars (UspsTracktor.user_id self) ->
  Forall xml_chars numbers ->
  exists xml,
    UspsTracktor._build_xml (self, w) = (Return xml, (self, w))
    /\ xml = request_text (UspsTracktor.user_id self) numbers
    /\ Xml.parse_document xml
       = Some (request_document (UspsTracktor.user_id self) numbers).
Proof.
  destruct self as [user_id url params tn]. cbn [UspsTracktor.tracking_numbers
    UspsTracktor.user_id]. intros -> Hu Hn.
  exists (request_text user_id numbers).
  rewrite build_xml_returns.
  rewrite (xml_chars_replaced (xml_chars_request Hu Hn)).
  repeat split. now apply parse_request.
Qed.

Lemma build_xml_well_formed_witness :
  exists xml,
    UspsTracktor._build_xml
      (usps_after (lit "123USERID") sample_numbers, answering ok_response)
    = (Return xml,
       (usps_after (lit "123USERID") sample_numbers, answering ok_response))
    /\ xml = request_text (lit "123USERID") sample_numbers
    /\ Xml.parse_document xml
       = Some (request_document (lit "123USERID") sample_numbers).
Proof.
  apply (@build_xml_well_formed
           (usps_after (lit "123USERID") sample_numbers) sample_numbers
           (answering ok_response)).
  - reflexivity.
  - reflexivity.
  - repeat constructor.
Defined.

(** C3 as it is written fails: a control character in a tracking number
    is written as it is, and XML does not allow it in a document. *)
Lemma build_xml_keeps_control_characters :
  fst (UspsTracktor._build_xml
         (usps_after (lit "123USERID") control_numbers, answering ok_response))
  = Return (request_text (lit "123USERID") control_numbers)
  /\ existsb (N.eqb 11) (request_text (lit "123USERID") control_numbers) = true
  /\ Xml.is_char 11 = false
  /\ Xml.parse_document (request_text (lit "123USERID") control_numbers) = None.
Proof.
  repeat split; vm_compute; reflexivity.
Qed.

(** C4: whatever calls came before, [UpsTracktor._make_request] makes
    exactly one call to the requests library, a POST to the fixed URL
    with the fixed headers, whose body is [str] of the body of the
    instance, and that body holds [Locale], [Requester] and the list of
    tracking numbers as it was given, in this order of keys. *)
Theorem ups_make_request_posts {U : Unicode}
    (calls : list (call (list str))) (w0 w : world) (numbers : list str) :
  let self :=
    fst (after_calls (T := UpsTracktor_Tracktor) calls (UpsTracktor.__init__, w0)) in
  let result := UpsTracktor._make_request numbers (self, w) in
  let self' := fst (snd result) in
  sent (snd (snd result))
  = sent w
    ++ [ Requests.mk_request Requests.POST
           (lit "https://www.ups.com/track/api/Track/GetStatus?loc=en_US")
           None
           (Some (Repr.str_dict (UpsTracktor.body self')))
           (Some [ (lit "accept", lit "application/json, text/plain, */*");
                   (lit "content-type", lit "application/json") ]) ]
  /\ UpsTracktor.body self'
     = [ (lit "Locale", Repr.Str (lit "en_US"));
         (lit "Requester", Repr.Str (lit "wt/trackdetails"));
         (lit "TrackingNumber", Repr.List numbers) ]
  /\ fst result
     = carrier w (sent w)
         (Requests.mk_request Requests.POST
            (lit "https://www.ups.com/track/api/Track/GetStatus?loc=en_US")
            None
            (Some (Repr.str_dict (UpsTracktor.body self')))
            (Some [ (lit "accept", lit "application/json, text/plain, */*");
                    (lit "content-type", lit "application/json") ])).
Proof.
  cbv zeta.
  rewrite (ups_make_request numbers w
             (ups_after_calls calls w0 (or_introl eq_refl))).
  repeat split.
Qed.


(** C6: two calls of [_make_request] in a row with the same list make
    the same call to the requests library twice: the same body for UPS,
    the same parameters for USPS. *)
Theorem make_request_twice {U : Unicode} (user_id : str)
    (ups_calls usps_calls : list (call (list str))) (w0 w : world)
    (numbers : list str) :
  (let self :=
     fst (after_calls (T := UpsTracktor_Tracktor) ups_calls
            (UpsTracktor.__init__, w0)) in
   let first := snd (UpsTracktor._make_request numbers (self, w)) in
   let second := snd (UpsTracktor._make_request numbers first) in
   exists payload,
     sent (snd first) = sent w ++ [payload]
     /\ sent (snd second) = sent w ++ [payload; payload])
  /\ (let self :=
        fst (after_calls (T := UspsTracktor_Tracktor) usps_calls
               (UspsTracktor.__init__ user_id, w0)) in
      let first := snd (UspsTracktor._make_request numbers (self, w)) in
      let second := snd (UspsTracktor._make_request numbers first) in
      exists payload,
        sent (snd first) = sent w ++ [payload]
        /\ sent (snd second) = sent w ++ [payload; payload]).
Proof.
  split; cbv zeta.
  - rewrite (ups_make_request numbers w
               (ups_after_calls ups_calls w0 (or_introl eq_refl))).
    cbn [snd].
    rewrite (@ups_make_request U (ups_after numbers) numbers _
               (or_intror (ex_intro _ numbers eq_refl))).
    exists (ups_request numbers). cbn [snd called sent].
    now rewrite <- app_assoc.
  - rewrite (usps_make_request numbers w
               (usps_after_calls usps_calls w0
                  (or_introl eq_refl
                   : usps_state user_id (UspsTracktor.__init__ user_id)))).
    cbn [snd].
    rewrite (@usps_make_request user_id (usps_after user_id numbers) numbers _
               (or_intror (ex_intro _ numbers eq_refl))).
    exists (usps_request user_id numbers). cbn [snd called sent].
    now rewrite <- app_assoc.
Qed.

(** C7: after any sequence of calls a tracker has the configuration it
    was made with: for UPS the URL, the headers and the entries [Locale]
    and [Requester] of the body, whose only other key can be
    [TrackingNumber]; for USPS the URL, the user identifier and the
    parameter [API]. *)
Theorem configuration_is_kept {U : Unicode} (user_id : str)
    (ups_calls usps_calls : list (call (list str))) (w0 : world) :
  (let self :=
     fst (after_calls (T := UpsTracktor_Tracktor) ups_calls
            (UpsTracktor.__init__, w0)) in
   UpsTracktor.url self = UpsTracktor.url UpsTracktor.__init__
   /\ UpsTracktor.headers self = UpsTracktor.headers UpsTracktor.__init__
   /\ Dict.get (lit "Locale") (UpsTracktor.body self)
      = Some (Repr.Str (lit "en_US"))
   /\ Dict.get (lit "Requester") (UpsTracktor.body self)
      = Some (Repr.Str (lit "wt/trackdetails"))
   /\ (Dict.keys (UpsTracktor.body self) = [ lit "Locale"; lit "Requester" ]
       \/ Dict.keys (UpsTracktor.body self)
          = [ lit "Locale"; lit "Requester"; lit "TrackingNumber" ]))
  /\ (let self :=
        fst (after_calls (T := UspsTracktor_Tracktor) usps_calls
               (UspsTracktor.__init__ user_id, w0)) in
      UspsTracktor.url self = UspsTracktor.url (UspsTracktor.__init__ user_id)
      /\ UspsTracktor.user_id self = user_id
      /\ Dict.get (lit "API") (UspsTracktor.params self) = Some (lit "TrackV2")).
Proof.
  split; cbv zeta.
  - destruct (ups_after_calls ups_calls w0 (or_introl eq_refl))
      as [-> | [numbers ->]].
    + repeat split. now left.
    + repeat split. now right.
  - destruct (usps_after_calls usps_calls w0
                (or_introl eq_refl
                 : usps_state user_id (UspsTracktor.__init__ user_id)))
      as [-> | [numbers ->]];
      repeat split.
Qed.

(** C8, as the code has it: a [UspsTracktor] is made from one argument,
    the user identifier, which is stored as it is, whatever it is; the
    URL and the parameter [API] are fixed.  Without the argument the call
    raises a [TypeError]. *)
Theorem UspsTracktor_takes_any_user_id :
  (forall user_id : str,
      UspsTracktor.new [user_id]
      = Return (UspsTracktor.mk user_id
                  (lit "http://production.shippingapis.com/ShippingAPI.dll")
                  [ (lit "API", lit "TrackV2") ] None))
  /\ exists e,
       UspsTracktor.new [] = Raise e
       /\ isinstance e (Builtin TypeError) = true.
Proof.
  split; [reflexivity|]. eexists. split; reflexivity.
Qed.

(** C8 as it is written fails: the empty user identifier is accepted. *)
Lemma UspsTracktor_takes_the_empty_user_id :
  UspsTracktor.new [ [] ] = Return (UspsTracktor.__init__ [])
  /\ UspsTracktor.user_id (UspsTracktor.__init__ []) = [].
Proof.
  split; reflexivity.
Qed.

(** C9: [Tracktor] has the abstract method [_make_request], so a call of
    the class raises a [TypeError] whatever [__init__] would do; the two
    carriers have no abstract method and their calls return an
    instance. *)
Theorem only_carriers_are_instantiated :
  ABC.abstractmethods Tracktor_class = [ lit "_make_request" ]
  /\ (forall (A : Type) (init : outcome A),
         exists e,
           ABC.instantiate Tracktor_class init = Raise e
           /\ isinstance e (Builtin TypeError) = true)
  /\ ABC.abstractmethods UpsTracktor.class = []
  /\ UpsTracktor.new = Return UpsTracktor.__init__
  /\ ABC.abstractmethods UspsTracktor.class = []
  /\ forall user_id : str,
       UspsTracktor.new [user_id] = Return (UspsTracktor.__init__ user_id).
Proof.
  repeat split. intros A init. eexists. split; reflexivity.
Qed.

(** ** Further properties *)

(** *** The instance after a sequence of calls *)

Lemma usps_after_calls_last user_id calls : forall last w,
  fst (after_calls (T := UspsTracktor_Tracktor) calls (usps_with user_id last, w))
  = usps_with user_id (fold_left (fun _ c => Some (call_args c)) calls last).
Proof.
  assert (S : forall last, usps_state user_id (usps_with user_id last)).
  { intros [numbers |]; [right; now exists numbers | now left]. }
  induction calls as [| [numbers | numbers] calls IH]; intros last w.
  - reflexivity.
  - cbn [after_calls fold_left call_args].
    change (@_make_request _ UspsTracktor_Tracktor numbers (usps_with user_id last, w))
      with (UspsTracktor._make_request numbers (usps_with user_id last, w)).
    rewrite (usps_make_request numbers w (S last)). cbn [snd].
    exact (IH (Some numbers) _).
  - cbn [after_calls fold_left call_args].
    destruct (track numbers (usps_with user_id last, w)) as [o [self' w']] eqn:E.
    cbn [snd].
    assert (E' : self' = fst (snd (@track _ UspsTracktor_Tracktor numbers
                                     (usps_with user_id last, w))))
      by now rewrite E.
    rewrite track_instance in E' by (intros; apply raise_for_status_state).
    change (@_make_request _ UspsTracktor_Tracktor numbers (usps_with user_id last, w))
      with (UspsTracktor._make_request numbers (usps_with user_id last, w)) in E'.
    rewrite (usps_make_request numbers w (S last)) in E'. cbn [fst snd] in E'.
    subst self'. exact (IH (Some numbers) _).
Qed.

(** X1: [_build_xml] works on the tracking numbers the instance keeps
    from the last call of [_make_request] or [track]: on an instance that
    has had no call it raises an [AttributeError], after a sequence of
    calls it returns the text for the numbers of the last one; the state
    is left as it was in both cases. *)
Theorem build_xml_uses_last_call (user_id : str)
    (calls : list (call (list str))) (w0 w : world) :
  let self :=
    fst (after_calls (T := UspsTracktor_Tracktor) calls
           (UspsTracktor.__init__ user_id, w0)) in
  match last_numbers calls with
  | None =>
      exists e,
        UspsTracktor._build_xml (self, w) = (Raise e, (self, w))
        /\ isinstance e (Builtin AttributeError) = true
  | Some numbers =>
      UspsTracktor._build_xml (self, w)
      = (Return (usps_xml user_id numbers), (self, w))
  end.
Proof.
  cbv zeta.
  assert (H : fst (after_calls (T := UspsTracktor_Tracktor) calls
                     (UspsTracktor.__init__ user_id, w0))
              = usps_with user_id (last_numbers calls))
    by exact (usps_after_calls_last user_id calls None w0).
  rewrite H.
  destruct (last_numbers calls) as [numbers |]; cbn [usps_with].
  - apply build_xml_returns.
  - eexists. split; reflexivity.
Qed.

(** *** The text layer *)

Lemma ascii_encodable b : (b < 128)%N -> Utf8.encodable b = true.
Proof.
  intros H. unfold Utf8.encodable, Utf8.is_surrogate. compare_N; try reflexivity.
Qed.

Lemma replaced_encodable c : forallb Utf8.encodable (replaced c) = true.
Proof.
  unfold replaced. destruct (Utf8.encodable c) eqn:E.
  - cbn. now rewrite E.
  - apply forallb_forall. intros b Hb.
    apply ascii_encodable.
    exact (proj1 (Forall_forall _ _) (charref_ascii c) b Hb).
Qed.

Lemma encodable_replaced s :
  forallb Utf8.encodable s = true -> flat_map replaced s = s.
Proof.
  induction s as [| c s IH]; [reflexivity|].
  cbn [forallb flat_map]. intros H. apply andb_prop in H. destruct H as [H1 H2].
  unfold replaced at 1. now rewrite H1, IH.
Qed.

Lemma encode_char_bytes c : Forall (fun b => b < 256)%N (Utf8.encode_char c).
Proof.
  unfold Utf8.encode_char.
  destruct (Utf8.encodable c) eqn:E; cbn [negb].
  2:{ eapply Forall_impl; [| apply charref_ascii]. cbn. intros. lia. }
  unfold Utf8.encodable in E. apply andb_prop in E. destruct E as [E _].
  apply N.ltb_lt in E.
  destruct (N.ltb_spec c 128); [| destruct (N.ltb_spec c 2048);
                                  [| destruct (N.ltb_spec c 65536)]];
    base64 c; intros; repeat constructor; lia.
Qed.

(** X2: what line 111 writes and line 114 reads back.  The bytes
    written are below 256; decoding them never fails; the text that
    comes back is the text written with every code point UTF-8 cannot
    encode (a surrogate) replaced by its decimal character reference, so
    a text without such code points comes back as it was. *)
Theorem utf8_write_then_decode (s : str) :
  Forall (fun b => b < 256)%N (Utf8.encode s)
  /\ Utf8.decode (Utf8.encode s) = Return (flat_map replaced s)
  /\ (forallb Utf8.encodable s = true ->
      Utf8.decode (Utf8.encode s) = Return s).
Proof.
  split; [| split].
  - unfold Utf8.encode. induction s as [| c s IH]; [constructor|].
    cbn [flat_map]. apply Forall_app. split; [apply encode_char_bytes | exact IH].
  - apply decode_encode.
  - intros H. now rewrite decode_encode, encodable_replaced.
Qed.

(** X3: once the instance has tracking numbers, [_build_xml] returns for
    every user identifier and every list of strings: no assertion of the
    builder fails and the bytes written always decode.  The text
    returned is the text of the request with unencodable code points
    replaced by character references, and every code point of it can be
    encoded; the instance and the world are left as they were. *)
Theorem build_xml_never_raises (user_id url : str) (params : Dict.t str)
    (numbers : list str) (w : world) :
  exists xml,
    UspsTracktor._build_xml (UspsTracktor.mk user_id url params (Some numbers), w)
    = (Return xml, (UspsTracktor.mk user_id url params (Some numbers), w))
    /\ xml = flat_map replaced (request_text user_id numbers)
    /\ forallb Utf8.encodable xml = true.
Proof.
  eexists. split; [apply build_xml_returns | split; [reflexivity|]].
  induction (request_text user_id numbers) as [| c s IH]; [reflexivity|].
  cbn [flat_map]. now rewrite forallb_app, replaced_encodable, IH.
Qed.

(** *** The handler *)

(** X4: [track] never raises an instance of [Exception]: an exception
    that leaves [track] is one the call or the check raised, it is not an
    [Exception], and the state is the one it was raised in, with nothing
    logged by [track]. *)
Theorem track_raises_no_Exception {Self} {T : Tracktor Self}
    (args : Args) (st : Self * world) (e : exn) (st' : Self * world) :
  track args st = (Raise e, st') ->
  isinstance e (Builtin Exception) = false /\ raises_in args st e st'.
Proof.
  intros H.
  destruct (attempt_cases args st) as [(r & st0 & st1 & H0 & H1 & _) | (e' & st1 & R & _)].
  - rewrite (track_on_return _ _ H0 H1) in H. discriminate.
  - rewrite (track_on_exception R) in H.
    destruct (isinstance e' (Builtin Exception)) eqn:E; [discriminate|].
    injection H as <- <-. now split.
Qed.

Lemma track_raises_no_Exception_witness :
  isinstance keyboard_interrupt (Builtin Exception) = false
  /\ raises_in (T := UspsTracktor_Tracktor) sample_numbers
       (sample_tracker, failing keyboard_interrupt) keyboard_interrupt
       (snd (UspsTracktor._make_request sample_numbers
               (sample_tracker, failing keyboard_interrupt))).
Proof.
  apply (@track_raises_no_Exception _ UspsTracktor_Tracktor sample_numbers
           (sample_tracker, failing keyboard_interrupt)).
  vm_compute. reflexivity.
Defined.

Lemma http_error_msg_status r :
  (Requests.http_error_msg r = [] /\ error_status r = false)
  \/ (Requests.http_error_msg r <> [] /\ error_status r = true).
Proof.
  unfold Requests.http_error_msg, error_status.
  destruct (N.leb_spec 400 (Requests.status_code r));
    destruct (N.ltb_spec (Requests.status_code r) 500);
    destruct (N.leb_spec 500 (Requests.status_code r));
    destruct (N.ltb_spec (Requests.status_code r) 600);
    cbn [andb]; try lia; try (left; now split); right; split; trivial;
    intros E; apply (f_equal (@List.length N)) in E;
    rewrite !length_app in E; cbn in E; lia.
Qed.

(** X5: a function decorated with the handler that returns a response
    of the requests library: the caller gets the response when its status
    is outside 400..599, with nothing logged; for a status in 400..599
    the caller gets no value and the log gets one warning, made of the
    message of the [HTTPError] and [ - Issue with request]. *)
Theorem handler_by_status {Self Args : Type}
    (func : Args -> Method Self Requests.Response) (args : Args)
    (st : Self * world) (r : Requests.Response) (st1 : Self * world) :
  func args st = (Return r, st1) ->
  ResponseHandler.handler Requests.raise_for_status func args st
  = if error_status r
    then (Return None,
          (fst st1,
           logged (Logging.mk_record Logging.WARNING
                     (Requests.http_error_msg r ++ lit " - Issue with request"))
             (snd st1)))
    else (Return (Some r), st1).
Proof.
  intros H. unfold ResponseHandler.handler, try_except_else,
    ResponseHandler.attempt, bind. rewrite H.
  unfold Requests.raise_for_status.
  destruct (http_error_msg_status r) as [[E ->] | [E ->]].
  - rewrite E. reflexivity.
  - destruct (Requests.http_error_msg r) as [| c msg]; [congruence|].
    destruct st1 as [self w]. reflexivity.
Qed.

Lemma handler_by_status_witness :
  track sample_numbers (sample_tracker, answering error_response)
  = (Return None,
     (usps_after (lit "123USERID") sample_numbers,
      logged (Logging.mk_record Logging.WARNING
                (Requests.http_error_msg error_response
                   ++ lit " - Issue with request"))
        (called (usps_request (lit "123USERID") sample_numbers)
           (answering error_response)))).
Proof.
  exact (@handler_by_status UspsTracktor.t (list str)
           UspsTracktor._make_request sample_numbers
           (sample_tracker, answering error_response) error_response
           (usps_after (lit "123USERID") sample_numbers,
            called (usps_request (lit "123USERID") sample_numbers)
              (answering error_response))
           (usps_make_request sample_numbers (answering error_response)
              (or_introl eq_refl))).
Defined.

(** *** Calls and requests *)

(** What [track] leaves, given what [_make_request] does, when the
    check of the response changes nothing. *)
Lemma track_after_make_request {Self} {T : Tracktor Self}
    (args : Args) (st : Self * world) :
  (forall r st0, snd (raise_for_status r st0) = st0) ->
  let st1 := snd (_make_request args st) in
  let st' := snd (track args st) in
  fst st' = fst st1
  /\ sent (snd st') = sent (snd st1)
  /\ (log (snd st') = log (snd st1)
      \/ exists line,
           log (snd st') = log (snd st1) ++ [line]
           /\ Logging.levelname line = Logging.WARNING).
Proof.
  intros C. cbv zeta.
  destruct (attempt_cases args st) as [(r & st0 & st1 & H & H' & _) | (e & st1 & R & _)].
  - rewrite (track_on_return _ _ H H'), H. cbn [snd].
    rewrite <- (C r st0), H'. cbn [snd]. repeat split. now left.
  - rewrite (track_on_exception R).
    assert (E : st1 = snd (_make_request args st)).
    { destruct R as [H | (r & st0 & H & H')].
      - now rewrite H.
      - rewrite H. cbn [snd]. now rewrite <- (C r st0), H'. }
    rewrite <- E.
    destruct (isinstance e (Builtin Exception)); cbn [fst snd logged sent log].
    + repeat split. right. exists (warning_of e). now split.
    + repeat split. now left.
Qed.

Lemma usps_sent user_id (calls : list (call (list str))) : forall last w,
  sent (snd (after_calls (T := UspsTracktor_Tracktor) calls
               (usps_with user_id last, w)))
  = sent w ++ map (fun c => usps_request user_id (call_args c)) calls.
Proof.
  assert (S : forall last, usps_state user_id (usps_with user_id last)).
  { intros [numbers |]; [right; now exists numbers | now left]. }
  induction calls as [| [numbers | numbers] calls IH]; intros last w.
  - cbn. now rewrite app_nil_r.
  - cbn [after_calls map call_args].
    pose proof (usps_make_request numbers w (S last)) as E.
    change (UspsTracktor._make_request numbers (usps_with user_id last, w))
      with (@_make_request _ UspsTracktor_Tracktor numbers (usps_with user_id last, w))
      in E.
    rewrite E. cbn [snd].
    rewrite (IH (Some numbers)). cbn [called sent]. now rewrite <- app_assoc.
  - cbn [after_calls map call_args].
    destruct (@track_after_make_request _ UspsTracktor_Tracktor numbers
                (usps_with user_id last, w)
                (fun r st0 => raise_for_status_state r st0)) as (E1 & E2 & _).
    pose proof (usps_make_request numbers w (S last)) as E.
    change (UspsTracktor._make_request numbers (usps_with user_id last, w))
      with (@_make_request _ UspsTracktor_Tracktor numbers (usps_with user_id last, w))
      in E.
    rewrite E in E1, E2. cbn [fst snd called sent] in E1, E2.
    destruct (@track UspsTracktor.t UspsTracktor_Tracktor numbers
                (usps_with user_id last, w)) as [o [self' w']].
    cbn [fst snd] in *. subst self'.
    rewrite (IH (Some numbers)), E2. now rewrite <- app_assoc.
Qed.

Section UpsCalls.

Context {U : Unicode}.

Lemma ups_sent (calls : list (call (list str))) : forall last w,
  sent (snd (after_calls (T := UpsTracktor_Tracktor) calls (ups_with last, w)))
  = sent w ++ map (fun c => ups_request (call_args c)) calls.
Proof.
  assert (S : forall last, ups_state (ups_with last)).
  { intros [numbers |]; [right; now exists numbers | now left]. }
  induction calls as [| [numbers | numbers] calls IH]; intros last w.
  - cbn. now rewrite app_nil_r.
  - cbn [after_calls map call_args].
    pose proof (ups_make_request numbers w (S last)) as E.
    change (UpsTracktor._make_request numbers (ups_with last, w))
      with (@_make_request _ UpsTracktor_Tracktor numbers (ups_with last, w))
      in E.
    rewrite E. cbn [snd].
    rewrite (IH (Some numbers)). cbn [called sent]. now rewrite <- app_assoc.
  - cbn [after_calls map call_args].
    destruct (@track_after_make_request _ UpsTracktor_Tracktor numbers
                (ups_with last, w)
                (fun r st0 => raise_for_status_state r st0)) as (E1 & E2 & _).
    pose proof (ups_make_request numbers w (S last)) as E.
    change (UpsTracktor._make_request numbers (ups_with last, w))
      with (@_make_request _ UpsTracktor_Tracktor numbers (ups_with last, w))
      in E.
    rewrite E in E1, E2. cbn [fst snd called sent] in E1, E2.
    destruct (@track UpsTracktor.t UpsTracktor_Tracktor numbers
                (ups_with last, w)) as [o [self' w']].
    cbn [fst snd] in *. subst self'.
    rewrite (IH (Some numbers)), E2. now rewrite <- app_assoc.
Qed.

End UpsCalls.

(** X6: a sequence of calls of [_make_request] and [track] on a fresh
    tracker makes exactly one call to the requests library per call, in
    the order of the calls and each for the tracking numbers of its own
    call, whatever the carrier answers: nothing is retried, merged or
    left out. *)
Theorem one_request_per_call {U : Unicode} (user_id : str)
    (calls : list (call (list str))) (w0 : world) :
  sent (snd (after_calls (T := UpsTracktor_Tracktor) calls
               (UpsTracktor.__init__, w0)))
  = sent w0 ++ map (fun c => ups_request (call_args c)) calls
  /\ sent (snd (after_calls (T := UspsTracktor_Tracktor) calls
                  (UspsTracktor.__init__ user_id, w0)))
     = sent w0 ++ map (fun c => usps_request user_id (call_args c)) calls.
Proof.
  split.
  - exact (ups_sent calls None w0).
  - exact (usps_sent user_id calls None w0).
Qed.

(** X7: [track] changes the instance as [_make_request] does, also when
    the request fails and [track] returns no value or raises: afterwards
    the body of a [UpsTracktor] holds the tracking numbers of the call, a
    [UspsTracktor] keeps them in [tracking_numbers] and keeps their text
    in the parameter [XML]; and one call has been made. *)
Theorem track_leaves_the_numbers {U : Unicode} (user_id : str)
    (calls : list (call (list str))) (w0 w : world) (numbers : list str) :
  (let self :=
     fst (after_calls (T := UpsTracktor_Tracktor) calls
            (UpsTracktor.__init__, w0)) in
   let st' := snd (@track _ UpsTracktor_Tracktor numbers (self, w)) in
   UpsTracktor.body (fst st') = ups_body numbers
   /\ sent (snd st') = sent w ++ [ups_request numbers])
  /\ (let self :=
        fst (after_calls (T := UspsTracktor_Tracktor) calls
               (UspsTracktor.__init__ user_id, w0)) in
      let st' := snd (@track _ UspsTracktor_Tracktor numbers (self, w)) in
      UspsTracktor.tracking_numbers (fst st') = Some numbers
      /\ Dict.get (lit "XML") (UspsTracktor.params (fst st'))
         = Some (usps_xml user_id numbers)
      /\ sent (snd st') = sent w ++ [usps_request user_id numbers]).
Proof.
  split; cbv zeta.
  - destruct (@track_after_make_request _ UpsTracktor_Tracktor numbers
                (fst (after_calls (T := UpsTracktor_Tracktor) calls
                        (UpsTracktor.__init__, w0)), w)
                (fun r st0 => raise_for_status_state r st0)) as (E1 & E2 & _).
    pose proof (ups_make_request numbers w
                  (ups_after_calls calls w0 (or_introl eq_refl))) as E.
    change (UpsTracktor._make_request numbers ?st)
      with (@_make_request _ UpsTracktor_Tracktor numbers st) in E.
    rewrite E in E1, E2. rewrite E1, E2. split; reflexivity.
  - destruct (@track_after_make_request _ UspsTracktor_Tracktor numbers
                (fst (after_calls (T := UspsTracktor_Tracktor) calls
                        (UspsTracktor.__init__ user_id, w0)), w)
                (fun r st0 => raise_for_status_state r st0)) as (E1 & E2 & _).
    pose proof (usps_make_request numbers w
                  (usps_after_calls calls w0
                     (or_introl eq_refl
                      : usps_state user_id (UspsTracktor.__init__ user_id)))) as E.
    change (UspsTracktor._make_request numbers ?st)
      with (@_make_request _ UspsTracktor_Tracktor numbers st) in E.
    rewrite E in E1, E2. rewrite E1, E2. repeat split.
Qed.

(** *** The texts sent *)

Lemma occurrences_app c a b :
  occurrences c (a ++ b) = occurrences c a + occurrences c b.
Proof. apply count_occ_app. Qed.

Lemma occurrences_none c s :
  Forall (fun b => b <> c) s -> occurrences c s = 0.
Proof.
  intros H. apply count_occ_not_In. intros I.
  exact (proj1 (Forall_forall _ _) H c I eq_refl).
Qed.

Lemma occurrences_flat_map {A} c (f : A -> str) l :
  (forall x, occurrences c (f x) = 0) -> occurrences c (flat_map f l) = 0.
Proof.
  intros H. induction l as [| x l IH]; [reflexivity|].
  cbn [flat_map]. now rewrite occurrences_app, H, IH.
Qed.

Lemma digits_decimal fuel : forall n acc,
  Forall (fun b => 48 <= b <= 57)%N acc ->
  Forall (fun b => 48 <= b <= 57)%N (digits fuel n acc).
Proof.
  induction fuel as [| fuel IH]; intros n acc H; cbn [digits]; [exact H|].
  assert (D : (48 <= 48 + n mod 10 <= 57)%N).
  { pose proof (N.mod_lt n 10 ltac:(discriminate)).
    generalize dependent (n mod 10)%N. intros. lia. }
  destruct (n <? 10)%N; [| apply IH]; now constructor.
Qed.

(** A character reference holds an ampersand, a number sign, digits and
    a semicolon. *)
Lemma charref_no_markup c k :
  k = 60%N \/ k = 34%N -> occurrences k (Utf8.charref c) = 0.
Proof.
  intros K. apply occurrences_none. unfold Utf8.charref.
  apply Forall_app. split; [| apply Forall_app; split].
  - repeat constructor; destruct K; subst; discriminate.
  - eapply Forall_impl; [| apply digits_decimal; constructor].
    cbn. intros b Hb. destruct K; subst; lia.
  - repeat constructor; destruct K; subst; discriminate.
Qed.

Lemma replaced_markup c k :
  k = 60%N \/ k = 34%N -> occurrences k (replaced c) = occurrences k [c].
Proof.
  intros K. unfold replaced. destruct (Utf8.encodable c) eqn:E; [reflexivity|].
  rewrite (charref_no_markup c K). symmetry. apply occurrences_none.
  constructor; [| constructor]. intros ->.
  destruct K; subst; discriminate.
Qed.

Lemma replaced_text_markup k s :
  k = 60%N \/ k = 34%N ->
  occurrences k (flat_map replaced s) = occurrences k s.
Proof.
  intros K. induction s as [| c s IH]; [reflexivity|].
  cbn [flat_map]. rewrite occurrences_app, (replaced_markup c K), IH.
  change (c :: s) with ([c] ++ s). now rewrite occurrences_app.
Qed.

Lemma escaped_no_markup k v :
  k = 60%N \/ k = 34%N -> occurrences k (flat_map escaped_char v) = 0.
Proof.
  intros K. apply occurrences_flat_map. intros c. unfold escaped_char.
  repeat match goal with
    | |- context [N.eqb c ?j] =>
        destruct (N.eqb_spec c j); [destruct K; subst; reflexivity|]
    end.
  apply occurrences_none. constructor; [| constructor].
  destruct K; subst; assumption.
Qed.

Lemma TrackID_texts_markup numbers :
  occurrences 60 (flat_map TrackID_text numbers) = 2 * List.length numbers
  /\ occurrences 34 (flat_map TrackID_text numbers) = 2 * List.length numbers.
Proof.
  induction numbers as [| n numbers [IH1 IH2]]; [split; reflexivity|].
  cbn [flat_map List.length]. rewrite !occurrences_app, IH1, IH2.
  unfold TrackID_text. rewrite !occurrences_app.
  rewrite (escaped_no_markup n (or_introl eq_refl)),
          (escaped_no_markup n (or_intror eq_refl)).
  split; cbn; lia.
Qed.

(** X8: whatever the user identifier and the tracking numbers hold, the
    text [_build_xml] returns has three [<] and two per tracking number
    (the declaration, the tags of the root and the tags of each
    [TrackID]), and two quotation marks and two per tracking number (the
    delimiters of the attribute values): a tracking number adds no tag
    and ends no attribute value. *)
Theorem build_xml_markup (user_id url : str) (params : Dict.t str)
    (numbers : list str) (w : world) :
  exists xml,
    fst (UspsTracktor._build_xml
           (UspsTracktor.mk user_id url params (Some numbers), w))
    = Return xml
    /\ occurrences 60 xml = 3 + 2 * List.length numbers
    /\ occurrences 34 xml = 2 + 2 * List.length numbers.
Proof.
  eexists. rewrite build_xml_returns. split; [reflexivity|].
  rewrite !replaced_text_markup by auto.
  unfold request_text. rewrite !occurrences_app.
  destruct (TrackID_texts_markup numbers) as [-> ->].
  rewrite (escaped_no_markup user_id (or_introl eq_refl)),
          (escaped_no_markup user_id (or_intror eq_refl)).
  split; cbn; lia.
Qed.

Lemma TrackID_nodes_injective a b :
  map TrackID_node a = map TrackID_node b -> a = b.
Proof.
  revert b. induction a as [| x a IH]; intros [| y b] H; try discriminate.
  - reflexivity.
  - cbn [map] in H. injection H as Hx Hr. now rewrite Hx, (IH b Hr).
Qed.

Lemma Return_injective {A} (a b : A) : Return a = Return b -> a = b.
Proof. intros H. now injection H. Qed.

(** X9: the text [_build_xml] returns tells the request: for user
    identifiers and tracking numbers made of characters XML allows, two
    instances for which it returns the same text have the same user
    identifier and the same tracking numbers. *)
Theorem build_xml_injective (u1 u2 url1 url2 : str) (p1 p2 : Dict.t str)
    (n1 n2 : list str) (w1 w2 : world) :
  xml_chars u1 -> Forall xml_chars n1 ->
  xml_chars u2 -> Forall xml_chars n2 ->
  fst (UspsTracktor._build_xml (UspsTracktor.mk u1 url1 p1 (Some n1), w1))
  = fst (UspsTracktor._build_xml (UspsTracktor.mk u2 url2 p2 (Some n2), w2)) ->
  u1 = u2 /\ n1 = n2.
Proof.
  intros Hu1 Hn1 Hu2 Hn2. rewrite !build_xml_returns. cbn [fst].
  rewrite (xml_chars_replaced (xml_chars_request Hu1 Hn1)),
          (xml_chars_replaced (xml_chars_request Hu2 Hn2)).
  intros E. apply Return_injective in E.
  pose proof (parse_request Hu1 Hn1) as P1.
  pose proof (parse_request Hu2 Hn2) as P2.
  rewrite E, P2 in P1. injection P1 as Hu Hn.
  split; [now symmetry | symmetry; now apply TrackID_nodes_injective].
Qed.

Lemma build_xml_injective_witness :
  lit "123USERID" = lit "123USERID" /\ sample_numbers = sample_numbers.
Proof.
  apply (@build_xml_injective (lit "123USERID") (lit "123USERID")
           (lit "a") (lit "b") [] [ (lit "API", lit "TrackV2") ]
           sample_numbers sample_numbers
           (answering ok_response) (failing connection_error)).
  - reflexivity.
  - repeat constructor.
  - reflexivity.
  - repeat constructor.
  - vm_compute. reflexivity.
Defined.

Section UpsText.

Context {U : Unicode}.

Lemma repr_char_alphanumeric (c : N) :
  alphanumeric c = true -> Repr.repr_char 39 c = [c].
Proof.
  unfold Repr.repr_char, Repr.backslash, alphanumeric, Xml.between.
  intros H.
  assert (R : (48 <= c <= 57 \/ 65 <= c <= 90 \/ 97 <= c <= 122)%N).
  { revert H. compare_N; cbn [andb orb]; try discriminate; intros _; lia. }
  clear H.
  repeat match goal with
    | |- context [N.eqb c ?j] => destruct (N.eqb_spec c j); [lia|]
    end.
  cbn [orb]. compare_N; reflexivity.
Qed.

Lemma alphanumeric_no_apostrophe (s : str) :
  forallb alphanumeric s = true -> contains Repr.apostrophe s = false.
Proof.
  unfold contains. induction s as [| c s IH]; [reflexivity|].
  cbn [forallb existsb]. intros H. apply andb_prop in H. destruct H as [H1 H2].
  rewrite (IH H2), orb_false_r. unfold Repr.apostrophe.
  destruct (N.eqb_spec 39 c) as [<- |]; [discriminate | reflexivity].
Qed.

Lemma repr_alphanumeric (s : str) :
  forallb alphanumeric s = true ->
  Repr.repr_str s = [39%N] ++ s ++ [39%N].
Proof.
  intros H. unfold Repr.repr_str, Repr.quote_of.
  rewrite (alphanumeric_no_apostrophe s H). cbn [andb Repr.apostrophe].
  replace (flat_map (Repr.repr_char 39) s) with s; [reflexivity|].
  induction s as [| c s IH]; [reflexivity|].
  cbn [forallb flat_map] in *. apply andb_prop in H. destruct H as [H1 H2].
  now rewrite (repr_char_alphanumeric c H1), <- (IH H2).
Qed.

(** X10: for tracking numbers made of ASCII letters and digits, the body
    [UpsTracktor._make_request] posts is the text of the dict with its
    three keys in order, every string between apostrophes and the
    tracking numbers between brackets, separated by a comma and a space
    (the notation of Python, which JSON does not read). *)
Theorem ups_body_text (numbers : list str) (w : world) :
  Forall (fun n => forallb alphanumeric n = true) numbers ->
  map Requests.data
    (sent (snd (snd (UpsTracktor._make_request numbers (UpsTracktor.__init__, w)))))
  = map Requests.data (sent w)
    ++ [ Some (lit "{'Locale': 'en_US', 'Requester': 'wt/trackdetails', 'TrackingNumber': ["
               ++ join (lit ", ") (map (fun n => [39%N] ++ n ++ [39%N]) numbers)
               ++ lit "]}") ].
Proof.
  intros H.
  rewrite (ups_make_request numbers w (or_introl eq_refl)).
  cbn [snd called sent]. rewrite map_app. f_equal.
  cbn [map Requests.data ups_request]. f_equal. f_equal.
  unfold Repr.str_dict, ups_body. cbn [map fst snd Repr.repr].
  rewrite (map_ext_Forall _ (fun n => [39%N] ++ n ++ [39%N]))
    by (eapply Forall_impl; [| exact H]; intros n Hn; now apply repr_alphanumeric).
  cbn [join]. rewrite <- !app_assoc. reflexivity.
Qed.

End UpsText.

Lemma ups_body_text_witness :
  map Requests.data
    (sent (snd (snd (@UpsTracktor._make_request ascii_only
                       [ lit "1Z999AA10123456784" ]
                       (UpsTracktor.__init__, answering ok_response)))))
  = [ Some (lit "{'Locale': 'en_US', 'Requester': 'wt/trackdetails', 'TrackingNumber': ['1Z999AA10123456784']}") ].
Proof.
  apply (@ups_body_text ascii_only [ lit "1Z999AA10123456784" ]
           (answering ok_response)).
  repeat constructor.
Defined.

(** *** Subclasses *)




(** *** Dictionaries of an instance *)

Lemma str_eqb_eq (a b : str) : str_eqb a b = true <-> a = b.
Proof.
  revert b. induction a as [| x a IH]; intros [| y b]; cbn [str_eqb];
    try (split; [discriminate | congruence]); [now split|].
  rewrite andb_true_iff, N.eqb_eq, IH. split.
  - now intros [-> ->].
  - intros H. injection H as -> ->. now split.
Qed.

Lemma get_setitem {V} (k : str) (v : V) (d : Dict.t V) :
  Dict.get k (Dict.setitem k v d) = Some v.
Proof.
  induction d as [| [k' v'] d IH]; cbn [Dict.setitem Dict.get].
  - replace (str_eqb k k) with true by (symmetry; now apply str_eqb_eq).
    reflexivity.
  - destruct (str_eqb k' k) eqn:E; cbn [Dict.get]; rewrite E; [reflexivity | exact IH].
Qed.

Lemma get_setitem_other {V} (k k' : str) (v : V) (d : Dict.t V) :
  k' <> k -> Dict.get k' (Dict.setitem k v d) = Dict.get k' d.
Proof.
  intros N. induction d as [| [k0 v0] d IH]; cbn [Dict.setitem Dict.get].
  - destruct (str_eqb k k') eqn:E; [| reflexivity].
    apply str_eqb_eq in E. congruence.
  - destruct (str_eqb k0 k) eqn:E; cbn [Dict.get].
    + destruct (str_eqb k0 k') eqn:E'; [| reflexivity].
      apply str_eqb_eq in E, E'. congruence.
    + now rewrite IH.
Qed.

Lemma keys_setitem {V} (k : str) (v : V) (d : Dict.t V) :
  Dict.keys (Dict.setitem k v d)
  = if existsb (fun k' => str_eqb k' k) (Dict.keys d)
    then Dict.keys d else Dict.keys d ++ [k].
Proof.
  unfold Dict.keys. induction d as [| [k' v'] d IH]; [reflexivity|].
  cbn [Dict.setitem map fst existsb].
  destruct (str_eqb k' k) eqn:E; cbn [orb map fst]; [reflexivity|].
  rewrite IH. now destruct (existsb _ (map fst d)).
Qed.

Lemma usps_make_request_any (self : UspsTracktor.t) (numbers : list str) (w : world) :
  let params' :=
    Dict.setitem (lit "XML") (usps_xml (UspsTracktor.user_id self) numbers)
      (UspsTracktor.params self) in
  let rq :=
    Requests.mk_request Requests.GET (UspsTracktor.url self) (Some params')
      None None in
  UspsTracktor._make_request numbers (self, w)
  = (carrier w (sent w) rq,
     (UspsTracktor.mk (UspsTracktor.user_id self) (UspsTracktor.url self)
        params' (Some numbers),
      called rq w)).
Proof.
  destruct self as [user_id url params tn]. cbv zeta.
  unfold UspsTracktor._make_request.
  unfold bind at 1; unfold get_self at 1; cbn [fst snd].
  unfold bind at 1; unfold set_self at 1; cbn [fst snd].
  unfold bind at 1.
  cbn [UspsTracktor.user_id UspsTracktor.url UspsTracktor.params].
  rewrite build_xml_returns. reflexivity.
Qed.

Lemma ups_make_request_any {U : Unicode} (self : UpsTracktor.t)
    (numbers : list str) (w : world) :
  let body' :=
    Dict.setitem (lit "TrackingNumber") (Repr.List numbers) (UpsTracktor.body self) in
  let rq :=
    Requests.mk_request Requests.POST (UpsTracktor.url self) None
      (Some (Repr.str_dict body')) (Some (UpsTracktor.headers self)) in
  UpsTracktor._make_request numbers (self, w)
  = (carrier w (sent w) rq,
     (UpsTracktor.mk (UpsTracktor.url self) body' (UpsTracktor.headers self),
      called rq w)).
Proof.
  destruct self as [url body headers]. reflexivity.
Qed.

(** X12: on any instance, also one whose dictionaries the caller has
    changed, [_make_request] assigns one key and leaves the others: a
    [UpsTracktor] gets the tracking numbers under [TrackingNumber] of its
    body, a [UspsTracktor] gets the text of the request under [XML] of
    its parameters; every other key keeps its value, the keys keep their
    order (a new key goes last), and the call made carries the URL of the
    instance and the dictionary as it is after the assignment. *)
Theorem make_request_assigns_one_key {U : Unicode}
    (ups : UpsTracktor.t) (usps : UspsTracktor.t) (numbers : list str)
    (w : world) :
  (let result := UpsTracktor._make_request numbers (ups, w) in
   let ups' := fst (snd result) in
   Dict.get (lit "TrackingNumber") (UpsTracktor.body ups')
   = Some (Repr.List numbers)
   /\ (forall k, k <> lit "TrackingNumber" ->
                 Dict.get k (UpsTracktor.body ups')
                 = Dict.get k (UpsTracktor.body ups))
   /\ Dict.keys (UpsTracktor.body ups')
      = (if existsb (fun k => str_eqb k (lit "TrackingNumber"))
              (Dict.keys (UpsTracktor.body ups))
         then Dict.keys (UpsTracktor.body ups)
         else Dict.keys (UpsTracktor.body ups) ++ [ lit "TrackingNumber" ])
   /\ sent (snd (snd result))
      = sent w
        ++ [ Requests.mk_request Requests.POST (UpsTracktor.url ups) None
               (Some (Repr.str_dict (UpsTracktor.body ups')))
               (Some (UpsTracktor.headers ups)) ])
  /\ (let result := UspsTracktor._make_request numbers (usps, w) in
      let usps' := fst (snd result) in
      Dict.get (lit "XML") (UspsTracktor.params usps')
      = Some (usps_xml (UspsTracktor.user_id usps) numbers)
      /\ (forall k, k <> lit "XML" ->
                    Dict.get k (UspsTracktor.params usps')
                    = Dict.get k (UspsTracktor.params usps))
      /\ Dict.keys (UspsTracktor.params usps')
         = (if existsb (fun k => str_eqb k (lit "XML"))
                 (Dict.keys (UspsTracktor.params usps))
            then Dict.keys (UspsTracktor.params usps)
            else Dict.keys (UspsTracktor.params usps) ++ [ lit "XML" ])
      /\ sent (snd (snd result))
         = sent w
           ++ [ Requests.mk_request Requests.GET (UspsTracktor.url usps)
                  (Some (UspsTracktor.params usps')) None None ]).
Proof.
  split; cbv zeta.
  - rewrite ups_make_request_any. cbn [fst snd UpsTracktor.body called sent].
    split; [apply get_setitem|].
    split; [intros k Hk; now apply get_setitem_other|].
    split; [apply keys_setitem | reflexivity].
  - rewrite usps_make_request_any. cbn [fst snd UspsTracktor.params called sent].
    split; [apply get_setitem|].
    split; [intros k Hk; now apply get_setitem_other|].
    split; [apply keys_setitem | reflexivity].
Qed.

(** *** The log *)


